(** * nova-react-sdk: the object cache, its reducer, the loader facade,
      the transport helper and the registry sync CLI.

    The development follows the TypeScript sources of the SDK
    (context/NovaContext.tsx in its two revisions, service/api.ts) and
    the CLI script bin/sync-nova-registry.cjs. *)

From Stdlib Require Import ZArith Ascii String.
From stdpp Require Import base option list gmap strings pretty fin_maps.

Local Open Scope string_scope.
Local Open Scope list_scope.
Local Open Scope Z_scope.

(** ** JavaScript values

    The values that travel through the SDK are JSON documents plus
    [undefined].  An object is an association list in property order; the
    keys of an object are pairwise distinct, as in every JavaScript object.
    A number is an integer that a double holds exactly (magnitude at most
    2^53). *)

#[warnings="-register-all"]
Inductive json : Type :=
  | JUndefined
  | JNull
  | JBool (b : bool)
  | JNum (n : Z)
  | JStr (s : string)
  | JArr (items : list json)
  | JObj (fields : list (string * json)).

(** ToBoolean: [undefined], [null], [false], [0] and the empty string are
    falsy, every object and array is truthy. *)
Definition truthy (v : json) : bool :=
  match v with
  | JUndefined | JNull => false
  | JBool b => b
  | JNum n => negb (n =? 0)
  | JStr s => negb (String.eqb s EmptyString)
  | JArr _ | JObj _ => true
  end.

(** [a || b] on values. *)
Definition js_or (a b : json) : json := if truthy a then a else b.

Fixpoint assoc (k : string) (l : list (string * json)) : option json :=
  match l with
  | [] => None
  | (k', v) :: r => if String.eqb k k' then Some v else assoc k r
  end.

(** Property read [v.k] or [v[k]] for a key that is neither an array
    index, nor [length], nor a member of [Object.prototype] (the sources
    read documents at fixed keys such as [variant_config] only); on [null]
    and [undefined] the read throws, which is [None] here. *)
Definition js_get (v : json) (k : string) : option json :=
  match v with
  | JUndefined | JNull => None
  | JObj l => Some (default JUndefined (assoc k l))
  | _ => Some JUndefined
  end.

(** Optional chaining [v?.k]. *)
Definition js_get_opt (v : json) (k : string) : json :=
  default JUndefined (js_get v k).

Fixpoint indexed (i : nat) (l : list json) : list (string * json) :=
  match l with
  | [] => []
  | x :: r => (pretty i, x) :: indexed (S i) r
  end.

Fixpoint chars (s : string) : list json :=
  match s with
  | EmptyString => []
  | String c r => JStr (String c EmptyString) :: chars r
  end.

(** [Object.entries(v)]: own enumerable string-keyed properties; throws
    ([None]) on [null] and [undefined]. *)
Definition Object_entries (v : json) : option (list (string * json)) :=
  match v with
  | JUndefined | JNull => None
  | JObj l => Some l
  | JArr l => Some (indexed 0 l)
  | JStr s => Some (indexed 0 (chars s))
  | JBool _ | JNum _ => Some []
  end.

(** The members that every object literal inherits from
    [Object.prototype].  The cache is such an object and is read at keys
    the caller chooses: [objects[k]] for a [k] that is no own property
    but is listed here evaluates to the inherited member, a function (for
    [__proto__], the prototype itself).  That value is truthy, has no
    [props], [defaultProps] or [isLoaded] property, and has no own
    enumerable property, so spreading it contributes nothing. *)
Definition Object_prototype_members : list string :=
  [ "constructor"; "hasOwnProperty"; "isPrototypeOf"; "propertyIsEnumerable";
    "toLocaleString"; "toString"; "valueOf"; "__proto__";
    "__defineGetter__"; "__defineSetter__";
    "__lookupGetter__"; "__lookupSetter__" ].

Definition inherited (k : string) : bool :=
  existsb (String.eqb k) Object_prototype_members.

(** Thrown values.  Everything the sources throw is an [Error] instance;
    the [instanceof] tests in the handlers are kept by recording the class
    and by allowing a thrown value that is no [Error]. *)
Inductive error_class := PlainError | TypeError | SyntaxError.

Inductive thrown :=
  | ErrorObj (cls : error_class) (message : string)
  | NonError (v : json).

(** [error instanceof Error ? error.message : "Unknown error"] *)
Definition error_message (e : thrown) : string :=
  match e with
  | ErrorObj _ m => m
  | NonError _ => "Unknown error"
  end.

Inductive completion (A : Type) :=
  | Return (v : A)
  | Throw (e : thrown).
Arguments Return {A} v.
Arguments Throw {A} e.

(** ** Data model (NovaContext.tsx) *)

Record NovaConfig := {
  organisationId : string;
  appId : string;
  apiEndpoint : string }.

(** [Partial<NovaConfig>] *)
Record PartialNovaConfig := {
  organisationId_opt : option string;
  appId_opt : option string;
  apiEndpoint_opt : option string }.

Record NovaUser := {
  userId : string;
  userProfile : json;
  novaUserId : option string }.

(** A cache entry as it exists at run time: the reducer can build entries
    that lack [name] and [defaultProps], so both are optional here;
    [props] is [JNull] or [JUndefined] when nothing was fetched. *)
Record NovaObject := {
  name : option string;
  defaultProps : option json;
  props : json;
  isLoaded : bool;
  lastFetched : option Z }.

Record NovaState := {
  config : NovaConfig;
  user : option NovaUser;
  objects : gmap string NovaObject;
  isLoading : bool;
  error : option string }.

Inductive NovaAction :=
  | SET_CONFIG (payload : PartialNovaConfig)
  | SET_USER (payload : NovaUser)
  | SET_DEFAULTS (payload : gmap string json)
  | UPDATE_OBJECT_PROPS (name : string) (props : json)
  | SET_BULK_OBJECTS (payload : gmap string json)
  | SET_LOADING (payload : bool)
  | SET_ERROR (payload : option string).

(** ** The reducer *)

(** [{ ...state.config, ...action.payload }] *)
Definition merge_config (c : NovaConfig) (p : PartialNovaConfig) : NovaConfig :=
  {| organisationId := default (organisationId c) (organisationId_opt p);
     appId := default (appId c) (appId_opt p);
     apiEndpoint := default (apiEndpoint c) (apiEndpoint_opt p) |}.

(** [{ ...old, props, isLoaded: true, lastFetched: new Date() }] where
    [old] may be [undefined] or an inherited member: spreading either
    contributes nothing. *)
Definition with_fetched (now : Z) (old : option NovaObject) (p : json) : NovaObject :=
  {| name := old ≫= name;
     defaultProps := old ≫= defaultProps;
     props := p;
     isLoaded := true;
     lastFetched := Some now |}.

(** [{ ...old, name: objectName, defaultProps: objectProps }] *)
Definition with_defaults (old : NovaObject) (objectName : string) (objectProps : json)
  : NovaObject :=
  {| name := Some objectName;
     defaultProps := Some objectProps;
     props := props old;
     isLoaded := isLoaded old;
     lastFetched := lastFetched old |}.

(** [{ ...member, name: objectName, defaultProps: objectProps }] for an
    inherited [member]: the entry has no [props], no [isLoaded] and no
    [lastFetched]. *)
Definition defaults_only (objectName : string) (objectProps : json) : NovaObject :=
  {| name := Some objectName;
     defaultProps := Some objectProps;
     props := JUndefined;
     isLoaded := false;
     lastFetched := None |}.

(** Body of the [forEach] in the SET_DEFAULTS case.  The guard
    [if (newObjects[objectName])] passes when [newObjects] has the entry
    and when [objectName] names an inherited member.  (The assignment
    [newObjects["__proto__"] = ...] re-parents [newObjects] instead of
    adding a key; the statements that depend on this step exclude that
    key by hypothesis.) *)
Definition set_defaults_step (newObjects : gmap string NovaObject)
    (entry : string * json) : gmap string NovaObject :=
  let '(objectName, objectProps) := entry in
  match newObjects !! objectName with
  | Some old => <[objectName := with_defaults old objectName objectProps]> newObjects
  | None =>
      if inherited objectName
      then <[objectName := defaults_only objectName objectProps]> newObjects
      else newObjects
  end.

(** Body of the [forEach] in the SET_BULK_OBJECTS case. *)
Definition set_bulk_step (now : Z) (updatedObjects : gmap string NovaObject)
    (entry : string * json) : gmap string NovaObject :=
  let '(objectName, objectProps) := entry in
  <[objectName := with_fetched now (updatedObjects !! objectName) objectProps]>
    updatedObjects.

(** [novaReducer]; [now] is the clock reading that [new Date()] returns
    while the reducer runs. *)
Definition novaReducer (now : Z) (state : NovaState) (action : NovaAction) : NovaState :=
  match action with
  | SET_CONFIG payload =>
      {| config := merge_config (config state) payload;
         user := user state; objects := objects state;
         isLoading := isLoading state; error := error state |}
  | SET_USER payload =>
      {| config := config state;
         user := Some payload; objects := objects state;
         isLoading := isLoading state; error := error state |}
  | SET_DEFAULTS payload =>
      let newObjects := foldl set_defaults_step ∅ (map_to_list payload) in
      {| config := config state; user := user state;
         objects := newObjects;
         isLoading := isLoading state; error := error state |}
  | UPDATE_OBJECT_PROPS name props =>
      {| config := config state; user := user state;
         objects := <[name := with_fetched now (objects state !! name) props]>
                      (objects state);
         isLoading := isLoading state; error := error state |}
  | SET_BULK_OBJECTS payload =>
      let updatedObjects :=
        foldl (set_bulk_step now) (objects state) (map_to_list payload) in
      {| config := config state; user := user state;
         objects := updatedObjects;
         isLoading := isLoading state; error := error state |}
  | SET_LOADING payload =>
      {| config := config state; user := user state; objects := objects state;
         isLoading := payload; error := error state |}
  | SET_ERROR payload =>
      {| config := config state; user := user state; objects := objects state;
         isLoading := isLoading state; error := payload |}
  end.

(** ** Effects

    The provider's operations close over the [state] of the render they
    were created in, call [dispatch], [fetch] and the console, and finish
    by returning or throwing.  An operation is modelled by the list of
    effects it performs, in order, and its completion. *)

Record RequestInit := {
  method : option string;
  body : option json;   (* the value handed to JSON.stringify *)
  headers : gmap string string }.

Inductive event :=
  | Dispatch (a : NovaAction)
  | Fetch (url : string) (init : RequestInit)
  | ConsoleLog (msg : string)
  | ConsoleError (msg : string).

Definition prog (E A : Type) : Type := (list E * completion A)%type.

Definition ret {E A} (v : A) : prog E A := ([], Return v).
Definition throw {E A} (e : thrown) : prog E A := ([], Throw e).
Definition emit {E} (e : E) : prog E unit := ([e], Return tt).

Definition bind {E A B} (c : prog E A) (k : A → prog E B) : prog E B :=
  match c with
  | (t, Return v) => let '(t', r) := k v in (t ++ t', r)
  | (t, Throw e) => (t, Throw e)
  end.

Notation "'do' x <- c ; k" := (bind c (λ x, k))
  (at level 10, x name, c at level 100, k at level 200, only parsing).
Notation "'perform' c ; k" := (bind c (λ _, k))
  (at level 10, c at level 100, k at level 200, only parsing).

(** [try { body } catch (error) { handler } finally { finalizer }] *)
Definition try_catch_finally {E A} (body : prog E A) (handler : thrown → prog E A)
    (finalizer : prog E unit) : prog E A :=
  let '(t1, r1) := body in
  let '(t2, r2) := match r1 with
                   | Return v => ([], Return v)
                   | Throw e => handler e
                   end in
  let '(t3, r3) := finalizer in
  (t1 ++ t2 ++ t3, match r3 with Throw e => Throw e | Return _ => r2 end).

(** [try { body } catch (error) { handler }] *)
Definition try_catch {E A} (body : prog E A) (handler : thrown → prog E A)
  : prog E A :=
  match body with
  | (t, Return v) => (t, Return v)
  | (t, Throw e) => let '(t', r) := handler e in (t ++ t', r)
  end.

Definition dispatched (t : list event) : list NovaAction :=
  omap (λ e, match e with Dispatch a => Some a | _ => None end) t.

Definition fetches (t : list event) : list (string * RequestInit) :=
  omap (λ e, match e with Fetch u i => Some (u, i) | _ => None end) t.

(** The store processes the dispatched actions one after the other; the
    [i]-th reduction reads the clock value [clock i]. *)
Fixpoint reduce_all (clock : nat → Z) (i : nat) (s : NovaState)
    (acts : list NovaAction) : NovaState :=
  match acts with
  | [] => s
  | a :: rest => reduce_all clock (S i) (novaReducer (clock i) s a) rest
  end.

Definition state_after (clock : nat → Z) (s : NovaState) (t : list event) : NovaState :=
  reduce_all clock 0 s (dispatched t).

(** ** Transport helper (service/api.ts) *)

(** What the platform's [fetch] hands back: the promise rejects, or it
    resolves to a response whose [json()] in turn resolves or rejects and
    whose [text()] is the raw body. *)
Record Response := {
  status : nat;
  statusText : string;
  text_result : string;
  json_result : completion json }.

Inductive fetch_result :=
  | Rejected (e : thrown)
  | Responded (r : Response).

(** [response.ok]: the status is in the range 200-299. *)
Definition ok (r : Response) : bool :=
  ((200 <=? status r) && (status r <=? 299))%nat.

(** The [options] argument of [callApi] ([any], default [{}]). *)
Record CallOptions := {
  opt_method : option string;
  opt_body : option json;
  opt_headers : option (gmap string string) }.

Definition no_options : CallOptions :=
  {| opt_method := None; opt_body := None; opt_headers := None |}.

Definition content_type : string := "Content-Type".
Definition application_json : string := "application/json".

(** [{ ...options, headers: { "Content-Type": "application/json",
      ...options.headers } }]: a later spread overrides an earlier key. *)
Definition request_of (options : CallOptions) : RequestInit :=
  {| method := opt_method options;
     body := opt_body options;
     headers := default ∅ (opt_headers options)
                  ∪ {[ content_type := application_json ]} |}.

Definition api_error (r : Response) : thrown :=
  ErrorObj PlainError
    ("API error: " +:+ pretty (status r) +:+ " - " +:+ statusText r).

Definition callApi (url : string) (options : CallOptions) (net : fetch_result)
  : prog event json :=
  perform emit (Fetch url (request_of options));
  match net with
  | Rejected e => throw e
  | Responded response =>
      if negb (ok response) then throw (api_error response)
      else match json_result response with
           | Return v => ret v
           | Throw e => throw e
           end
  end.

(** ** Loader facade (NovaProvider, revision with [callApi]) *)

(** The double-quote character, for the template literals that quote a
    name. *)
Definition dq : string := String "034"%char EmptyString.

(** The precondition error of the three load operations. *)
Definition user_required : thrown :=
  ErrorObj PlainError "User must be set before loading objects".

(** The texts of the template literals logged or stored by the facade. *)
Definition not_found_message (objectName : string) : string :=
  "Object " +:+ dq +:+ objectName +:+ dq +:+ " not found. Did you register it?".

Definition skip_message (objectName : string) : string :=
  "Object " +:+ dq +:+ objectName +:+ dq +:+ " already loaded, skipping...".

Definition load_failure_message (objectName : string) (e : thrown) : string :=
  "Failed to load object " +:+ dq +:+ objectName +:+ dq +:+ ": " +:+ error_message e.

Definition bulk_failure_message (e : thrown) : string :=
  "Failed to load objects: " +:+ error_message e.

(** [{ method: "POST", body: JSON.stringify(b) }] *)
Definition post (b : json) : CallOptions :=
  {| opt_method := Some "POST"; opt_body := Some b; opt_headers := None |}.

(** Body of the [forEach] over [Object.entries(data)] in [loadObjects] and
    [loadAllObjects]:
    [if (featureName) objects[featureName] = featureData?.variant_config || {}] *)
Definition collect_step (objs : gmap string json) (entry : string * json)
  : gmap string json :=
  let '(featureName, featureData) := entry in
  if truthy (JStr featureName)
  then <[featureName := js_or (js_get_opt featureData "variant_config") (JObj [])]> objs
  else objs.

(** [Object.entries(data)], a [TypeError] when [data] is [null]. *)
Definition entries_or_throw (data : json) : prog event (list (string * json)) :=
  match Object_entries data with
  | Some l => ret l
  | None => throw (ErrorObj TypeError "Cannot convert undefined or null to object")
  end.

Module NovaProvider.
Section Provider.
(** The state of the render the operations were created in. *)
Variable state : NovaState.

Definition setLoading (loading : bool) : prog event unit :=
  emit (Dispatch (SET_LOADING loading)).

Definition setError (e : option string) : prog event unit :=
  emit (Dispatch (SET_ERROR e)).

(** [novaObject] is the own entry, else the inherited member of that
    name (truthy, and its [props] is [undefined]), else [undefined]. *)
Definition readNovaObject (objectName : string) : prog event json :=
  match objects state !! objectName with
  | None =>
      if inherited objectName then ret JUndefined
      else
        perform emit (ConsoleError (not_found_message objectName));
        ret JNull
  | Some novaObject => ret (props novaObject)
  end.

(** [state.objects[objectName]?.isLoaded || false]; an inherited member
    has no [isLoaded]. *)
Definition isObjectLoaded (objectName : string) : bool :=
  match objects state !! objectName with
  | Some novaObject => isLoaded novaObject
  | None => false
  end.

Definition variant_url : string :=
  apiEndpoint (config state) +:+ "/api/v1/user-experience/get-variant/".
Definition batch_url : string :=
  apiEndpoint (config state) +:+ "/api/v1/user-experience/get-variants-batch/".
Definition all_url : string :=
  apiEndpoint (config state) +:+ "/api/v1/user-experience/get-all-variants/".

Definition request_fields (u : NovaUser) : list (string * json) :=
  [ ("organisation_id", JStr (organisationId (config state)));
    ("app_id", JStr (appId (config state)));
    ("user_id", JStr (userId u));
    ("payload", js_or (userProfile u) (JObj [])) ].

Definition loadObject (objectName : string) (forceReload : bool)
    (net : fetch_result) : prog event json :=
  match user state with
  | None => throw user_required
  | Some u =>
      if negb forceReload && isObjectLoaded objectName then
        perform emit (ConsoleLog (skip_message objectName));
        ret JNull
      else
        perform setLoading true;
        perform setError None;
        try_catch_finally
          (do data <- callApi variant_url
               (post (JObj (request_fields u
                              ++ [("feature_name", JStr objectName)]))) net;
           let variantConfig := js_get_opt data "variant_config" in
           perform emit (Dispatch (UPDATE_OBJECT_PROPS objectName variantConfig));
           ret data)
          (λ e,
             perform setError (Some (load_failure_message objectName e));
             throw e)
          (setLoading false)
  end.

(** For an inherited member, [novaObject.props || novaObject.defaultProps]
    is [undefined]. *)
Definition getNovaObject (objectName : string) (readOnly : bool)
    (net : fetch_result) : prog event json :=
  match objects state !! objectName with
  | None =>
      if inherited objectName then ret JUndefined
      else if readOnly then
        perform emit (ConsoleError (not_found_message objectName));
        ret JNull
      else
        do variantConfig <- loadObject objectName false net;
        ret variantConfig
  | Some novaObject =>
      ret (js_or (props novaObject) (default JUndefined (defaultProps novaObject)))
  end.

(** The part shared by [loadObjects] and [loadAllObjects] from
    [setLoading(true)] on; [objects] is the local that the [try] block
    fills and the function returns. *)
Definition fetch_bulk (url : string) (b : json) (net : fetch_result)
  : prog event (gmap string json) :=
  perform setLoading true;
  perform setError None;
  try_catch_finally
    (do data <- callApi url (post b) net;
     do entries <- entries_or_throw data;
     let objs := foldl collect_step ∅ entries in
     perform emit (Dispatch (SET_BULK_OBJECTS objs));
     ret objs)
    (λ e,
       perform setError (Some (bulk_failure_message e));
       throw e)
    (setLoading false).

Definition objectsToLoad (objectNames : list string) (forceReload : bool)
  : list string :=
  if forceReload then objectNames
  else List.filter (λ n, negb (isObjectLoaded n)) objectNames.

Definition loadObjects (objectNames : list string) (forceReload : bool)
    (net : fetch_result) : prog event (gmap string json) :=
  match user state with
  | None => throw user_required
  | Some u =>
      let toLoad := objectsToLoad objectNames forceReload in
      if (length toLoad =? 0)%nat then
        perform emit (ConsoleLog "All requested objects already loaded, skipping...");
        ret ∅
      else
        fetch_bulk batch_url
          (JObj (request_fields u
                   ++ [("feature_names", JArr (JStr <$> toLoad))])) net
  end.

Definition loadAllObjects (forceReload : bool) (net : fetch_result)
  : prog event (gmap string json) :=
  if negb forceReload && (0 <? size (objects state))%nat then
    perform emit (ConsoleLog "Objects already loaded, skipping...");
    ret ∅
  else
    match user state with
    | None => throw user_required
    | Some u => fetch_bulk all_url (JObj (request_fields u)) net
    end.
End Provider.
End NovaProvider.

(** ** The earlier revision of the provider: [getNovaObject] is
    synchronous and never loads. *)
Module NovaProviderSync.
Section Provider.
Variable state : NovaState.

Definition getNovaObject (objectName : string) : prog event json :=
  match objects state !! objectName with
  | None =>
      if inherited objectName then ret JUndefined
      else
        perform emit (ConsoleError (not_found_message objectName));
        ret JNull
  | Some novaObject =>
      ret (js_or (props novaObject) (default JUndefined (defaultProps novaObject)))
  end.
End Provider.
End NovaProviderSync.


(** [initialState] of the provider. *)
Definition initialState (c : NovaConfig) : NovaState :=
  {| config := c; user := None; objects := ∅; isLoading := false; error := None |}.

(** The data-model invariant "every cache entry carries default
    properties". *)
Definition has_defaults (s : NovaState) : Prop :=
  ∀ k o, objects s !! k = Some o → is_Some (defaultProps o).


(** A state with every [lastFetched] stamp erased. *)
Definition unstamp_object (o : NovaObject) : NovaObject :=
  {| name := name o; defaultProps := defaultProps o; props := props o;
     isLoaded := isLoaded o; lastFetched := None |}.


(** ** The reducer over a store of object maps

    The only assignments in [novaReducer] are [newObjects[k] = ...] and
    [updatedObjects[k] = ...]: writes into an object map.  Entries,
    configuration, user and the state record itself are only ever built by
    object literals.  To speak about mutation, the object maps are placed
    in a store and a state refers to its map by location; [{ ...state }]
    copies that reference, [{}] and [{ ...state.objects }] allocate. *)
Module Store.
Definition loc := positive.

Record StateRef := {
  ref_config : NovaConfig;
  ref_user : option NovaUser;
  ref_objects : loc;
  ref_isLoading : bool;
  ref_error : option string }.

Definition read (h : gmap loc (gmap string NovaObject)) (l : loc)
  : gmap string NovaObject := default ∅ (h !! l).


(** [target[k] = f(target[k])]-style writes of the two loops, at
    location [l]. *)
Definition set_defaults_step (l : loc) (h : gmap loc (gmap string NovaObject))
    (entry : string * json) : gmap loc (gmap string NovaObject) :=
  let '(objectName, objectProps) := entry in
  match read h l !! objectName with
  | Some old =>
      <[l := <[objectName := with_defaults old objectName objectProps]> (read h l)]> h
  | None =>
      if inherited objectName
      then <[l := <[objectName := defaults_only objectName objectProps]> (read h l)]> h
      else h
  end.

Definition set_bulk_step (now : Z) (l : loc) (h : gmap loc (gmap string NovaObject))
    (entry : string * json) : gmap loc (gmap string NovaObject) :=
  let '(objectName, objectProps) := entry in
  <[l := <[objectName := with_fetched now (read h l !! objectName) objectProps]>
           (read h l)]> h.

Definition novaReducer (now : Z) (h : gmap loc (gmap string NovaObject))
    (state : StateRef) (action : NovaAction)
  : gmap loc (gmap string NovaObject) * StateRef :=
  match action with
  | SET_CONFIG payload =>
      (h, {| ref_config := merge_config (ref_config state) payload;
             ref_user := ref_user state; ref_objects := ref_objects state;
             ref_isLoading := ref_isLoading state; ref_error := ref_error state |})
  | SET_USER payload =>
      (h, {| ref_config := ref_config state; ref_user := Some payload;
             ref_objects := ref_objects state;
             ref_isLoading := ref_isLoading state; ref_error := ref_error state |})
  | SET_DEFAULTS payload =>
      let newObjects := fresh (dom h) in
      let h1 := <[newObjects := ∅]> h in
      let h2 := foldl (set_defaults_step newObjects) h1 (map_to_list payload) in
      (h2, {| ref_config := ref_config state; ref_user := ref_user state;
              ref_objects := newObjects;
              ref_isLoading := ref_isLoading state; ref_error := ref_error state |})
  | UPDATE_OBJECT_PROPS name props =>
      let l := fresh (dom h) in
      let old := read h (ref_objects state) in
      (<[l := <[name := with_fetched now (old !! name) props]> old]> h,
       {| ref_config := ref_config state; ref_user := ref_user state; ref_objects := l;
          ref_isLoading := ref_isLoading state; ref_error := ref_error state |})
  | SET_BULK_OBJECTS payload =>
      let updatedObjects := fresh (dom h) in
      let h1 := <[updatedObjects := read h (ref_objects state)]> h in
      let h2 := foldl (set_bulk_step now updatedObjects) h1 (map_to_list payload) in
      (h2, {| ref_config := ref_config state; ref_user := ref_user state;
              ref_objects := updatedObjects;
              ref_isLoading := ref_isLoading state; ref_error := ref_error state |})
  | SET_LOADING payload =>
      (h, {| ref_config := ref_config state; ref_user := ref_user state;
             ref_objects := ref_objects state;
             ref_isLoading := payload; ref_error := ref_error state |})
  | SET_ERROR payload =>
      (h, {| ref_config := ref_config state; ref_user := ref_user state;
             ref_objects := ref_objects state;
             ref_isLoading := ref_isLoading state; ref_error := payload |})
  end.
End Store.

(** ** Vocabulary for the statements about the loader *)

(** How the promise returned by [callApi] settles for a given behaviour of
    the network. *)
Definition api_completion (net : fetch_result) : completion json :=
  match net with
  | Rejected e => Throw e
  | Responded response =>
      if ok response then json_result response else Throw (api_error response)
  end.

(** The feature names carried by a successfully parsed response. *)
Definition returned_names (net : fetch_result) : list string :=
  match api_completion net with
  | Return data => (default [] (Object_entries data)).*1
  | Throw _ => []
  end.

(** The one request [loadObject] sends, and the one [loadObjects] sends
    for the names [toLoad]. *)
Definition variant_request (state : NovaState) (u : NovaUser) (nm : string)
  : string * RequestInit :=
  (NovaProvider.variant_url state,
   request_of (post (JObj (NovaProvider.request_fields state u
                             ++ [("feature_name", JStr nm)])))).

Definition batch_request (state : NovaState) (u : NovaUser) (toLoad : list string)
  : string * RequestInit :=
  (NovaProvider.batch_url state,
   request_of (post (JObj (NovaProvider.request_fields state u
                             ++ [("feature_names", JArr (JStr <$> toLoad))])))).

(** "Marked loaded", read off the data: the cache has an entry under the
    name and the entry's [isLoaded] flag is up. *)
Definition marked_loaded (s : NovaState) (n : string) : Prop :=
  ∃ o, objects s !! n = Some o ∧ isLoaded o = true.

(** The names of a list that are not marked loaded, in the order and
    with the repetitions of the list. *)
Definition not_marked_loaded (s : NovaState) (names : list string) : list string :=
  List.filter (λ n, match objects s !! n with
                    | Some o => negb (isLoaded o)
                    | None => true
                    end) names.

(** The requests as they go out on the wire, written out: the
    single-variant request for one name and the batch request for a list
    of names. *)
Definition single_variant_fetch (c : NovaConfig) (u : NovaUser) (nm : string)
  : string * RequestInit :=
  (apiEndpoint c +:+ "/api/v1/user-experience/get-variant/",
   {| method := Some "POST";
      body := Some (JObj [ ("organisation_id", JStr (organisationId c));
                           ("app_id", JStr (appId c));
                           ("user_id", JStr (userId u));
                           ("payload", js_or (userProfile u) (JObj []));
                           ("feature_name", JStr nm) ]);
      headers := {[ "Content-Type" := "application/json" ]} |}).

Definition batch_fetch (c : NovaConfig) (u : NovaUser) (names : list string)
  : string * RequestInit :=
  (apiEndpoint c +:+ "/api/v1/user-experience/get-variants-batch/",
   {| method := Some "POST";
      body := Some (JObj [ ("organisation_id", JStr (organisationId c));
                           ("app_id", JStr (appId c));
                           ("user_id", JStr (userId u));
                           ("payload", js_or (userProfile u) (JObj []));
                           ("feature_names", JArr (JStr <$> names)) ]);
      headers := {[ "Content-Type" := "application/json" ]} |}).

(** Sample data used by the worked examples. *)
Definition demo_config : NovaConfig :=
  {| organisationId := "org-1"; appId := "app-1";
     apiEndpoint := "https://nova.example" |}.

Definition demo_user : NovaUser :=
  {| userId := "u-1"; userProfile := JNull; novaUserId := None |}.

Definition red : json := JObj [("color", JStr "red")].
Definition blue : json := JObj [("color", JStr "blue")].


(** A registered, not yet loaded object, and a state holding it. *)
Definition unloaded_hero : NovaObject :=
  {| name := Some "hero"; defaultProps := Some red; props := JNull;
     isLoaded := false; lastFetched := None |}.

Definition loaded_hero : NovaObject :=
  {| name := Some "hero"; defaultProps := Some red; props := blue;
     isLoaded := true; lastFetched := Some 5 |}.

Definition state_with (u : option NovaUser) (objs : gmap string NovaObject)
    (loading : bool) : NovaState :=
  {| config := demo_config; user := u; objects := objs;
     isLoading := loading; error := None |}.

(** A network that is down, and a clock stuck at zero. *)
Definition offline : fetch_result := Rejected (ErrorObj TypeError "Failed to fetch").
Definition still_clock : nat → Z := λ _, 0.

(** A backend answer that carries [hero] and [banner]. *)
Definition two_variants : fetch_result :=
  Responded {| status := 200; statusText := "OK"; text_result := EmptyString;
               json_result := Return (JObj
                 [("hero", JObj [("variant_config", red)]);
                  ("banner", JObj [("variant_config", blue)])]) |}.

(** What [loadObjects] and [loadAllObjects] do up to and including the
    request. *)
Definition bulk_prefix (url : string) (b : json) : list event :=
  [Dispatch (SET_LOADING true); Dispatch (SET_ERROR None);
   Fetch url (request_of (post b))].


(** Options whose own headers name a different content type. *)
Definition plain_text_options : CallOptions :=
  {| opt_method := Some "POST"; opt_body := None;
     opt_headers := Some {[ content_type := "text/plain" ]} |}.

(** The [Content-Type] entry that the caller's own headers carry, if any. *)
Definition own_content_type (options : CallOptions) : option string :=
  opt_headers options ≫= (λ h, h !! content_type).

(** ** Registry sync CLI (bin/sync-nova-registry.cjs) *)

(** [String(v)] as a template literal computes it.  A number is
    rendered in decimal notation, which is what JavaScript prints for the
    integers a double holds exactly; from 10^21 on JavaScript switches to
    exponent notation, which is not modelled. *)
Fixpoint js_to_string (v : json) : string :=
  match v with
  | JUndefined => "undefined"
  | JNull => "null"
  | JBool true => "true"
  | JBool false => "false"
  | JNum n => pretty n
  | JStr s => s
  | JArr items =>
      String.concat ","
        (map (λ x, match x with
                   | JUndefined | JNull => EmptyString
                   | _ => js_to_string x
                   end) items)
  | JObj _ => "[object Object]"
  end.

(** [typeof v === "object"] *)
Definition typeof_object (v : json) : bool :=
  match v with
  | JNull | JArr _ | JObj _ => true
  | _ => false
  end.

(** [Object.keys(v).length] for a value that passed the manifest checks. *)
Definition keys_length (v : json) : nat :=
  match v with
  | JObj l => length l
  | JArr l => length l
  | _ => 0
  end.

(** [hay.includes(needle)] *)
Fixpoint includes (needle hay : string) : bool :=
  if String.prefix needle hay then true
  else match hay with
       | EmptyString => false
       | String _ rest => includes needle rest
       end.

Definition nl : string := String "010"%char EmptyString.

Module NovaSync.

(** A file of the project directory: missing, present but rejected by
    [JSON.parse] with the given message, or present and parsed. *)
Inductive file :=
  | Absent
  | Unparsable (message : string)
  | Parsed (v : json).

Record Environment := {
  NOVA_ORG_ID : option string;
  NOVA_APP_ID : option string;
  NOVA_API_KEY : option string;
  NOVA_API_ENDPOINT : option string;
  novarc : file;
  package_json : file;
  nova_objects_json : file }.

Inductive cli_event :=
  | Log (msg : string)
  | LogError (msg : string)
  | Exists (path : string)
  | Read (path : string)
  | WriteFile (path : string) (content : json)
  | Post (url : string) (hdrs : list (string * string)) (payload : json)
  | Exit (code : nat).

Record Config := {
  orgId : json;
  appId : json;
  apiKey : json;
  apiEndpoint : json }.

Definition rc_path : string := ".novarc".
Definition package_path : string := "package.json".
Definition manifest_path : string := "src/nova-objects.json".
Definition registry_path : string := "nova-registry.json".

Definition plain (m : string) : thrown := ErrorObj PlainError m.

(** [fs.existsSync(path)] *)
Definition existsSync (path : string) (f : file) : prog cli_event bool :=
  perform emit (Exists path);
  ret (match f with Absent => false | _ => true end).

(** [JSON.parse(fs.readFileSync(path, "utf8"))] *)
Definition read_json (path : string) (f : file) : prog cli_event json :=
  perform emit (Read path);
  match f with
  | Absent => throw (plain ("ENOENT: no such file or directory, open '"
                             +:+ path +:+ "'"))
  | Unparsable m => throw (ErrorObj SyntaxError m)
  | Parsed v => ret v
  end.

(** [v.k], which throws a [TypeError] on [null] and [undefined]. *)
Definition get_or_throw (v : json) (k : string) : prog cli_event json :=
  match js_get v k with
  | Some x => ret x
  | None => throw (ErrorObj TypeError
                     ("Cannot read properties of " +:+ js_to_string v
                        +:+ " (reading '" +:+ k +:+ "')"))
  end.

Definition env_var (v : option string) : json :=
  match v with Some s => JStr s | None => JUndefined end.

(** [Object.assign(config, source)], as far as the four fields that are
    ever read are concerned. *)
Definition assign (c : Config) (source : json) : Config :=
  match source with
  | JObj l =>
      {| orgId := default (orgId c) (assoc "orgId" l);
         appId := default (appId c) (assoc "appId" l);
         apiKey := default (apiKey c) (assoc "apiKey" l);
         apiEndpoint := default (apiEndpoint c) (assoc "apiEndpoint" l) |}
  | _ => c
  end.

Definition loadConfig (env : Environment) : prog cli_event Config :=
  let config0 :=
    {| orgId := env_var (NOVA_ORG_ID env);
       appId := env_var (NOVA_APP_ID env);
       apiKey := env_var (NOVA_API_KEY env);
       apiEndpoint := js_or (env_var (NOVA_API_ENDPOINT env))
                        (JStr "https://api.nova.com") |} in
  do config1 <-
    try_catch
      (do found <- existsSync rc_path (novarc env);
       if found then
         do rcConfig <- read_json rc_path (novarc env);
         ret (assign config0 rcConfig)
       else ret config0)
      (λ _, ret config0);
  try_catch
    (do packageJson <- read_json package_path (package_json env);
     do nova <- get_or_throw packageJson "nova";
     if truthy nova then ret (assign config1 nova) else ret config1)
    (λ _, ret config1).

Definition sdk_missing_message : string :=
  "nova-react-sdk not found in dependencies. Install it first:" +:+ nl
    +:+ "  npm install nova-react-sdk".

(** The variables pushed onto [missing]. *)
Definition missing (c : Config) : list string :=
  (if negb (truthy (orgId c)) then ["NOVA_ORG_ID"] else [])
  ++ (if negb (truthy (appId c)) then ["NOVA_APP_ID"] else [])
  ++ (if negb (truthy (apiKey c)) then ["NOVA_API_KEY"] else []).

(** First half of [validateProject]: the checks on [package.json]. *)
Definition validate_package (env : Environment) : prog cli_event unit :=
  do found <- existsSync package_path (package_json env);
  if negb found then
    throw (plain "No package.json found. Run this command from your project root.")
  else
    try_catch
      (do packageJson <- read_json package_path (package_json env);
       do deps <- get_or_throw packageJson "dependencies";
       do hasNova <-
         (if truthy (js_get_opt deps "nova-react-sdk")
          then ret (js_get_opt deps "nova-react-sdk")
          else do devDeps <- get_or_throw packageJson "devDependencies";
               ret (js_get_opt devDeps "nova-react-sdk"));
       if negb (truthy hasNova) then throw (plain sdk_missing_message)
       else ret tt)
      (λ e,
         match e with
         | ErrorObj _ m =>
             if includes "nova-react-sdk" m then throw e
             else throw (plain "Invalid package.json file")
         | NonError _ =>
             throw (ErrorObj TypeError
                      "Cannot read properties of undefined (reading 'includes')")
         end).

(** Second half of [validateProject]: the required configuration. *)
Definition validate_config (c : Config) : prog cli_event unit :=
  if negb (truthy (orgId c)) || negb (truthy (appId c)) || negb (truthy (apiKey c))
  then throw (plain ("Missing required configuration: "
                       +:+ String.concat ", " (missing c)))
  else ret tt.

Definition validateProject (c : Config) (env : Environment) : prog cli_event unit :=
  perform validate_package env;
  validate_config c.

Definition objects_required : string :=
  "nova-objects.json must have an " +:+ dq +:+ "objects" +:+ dq
    +:+ " property with object definitions".

Definition experiences_required : string :=
  "nova-objects.json must have an " +:+ dq +:+ "experiences" +:+ dq
    +:+ " property with experience definitions".

(** Returns the pair stored in [this.objects] and [this.experiences]. *)
Definition loadObjectsFromJson (env : Environment) : prog cli_event (json * json) :=
  perform emit (Log "📄 Loading objects from nova-objects.json...");
  do found <- existsSync manifest_path (nova_objects_json env);
  if negb found then
    throw (plain "nova-objects.json not found. Create this file with your object definitions.")
  else
    try_catch
      (do data <- read_json manifest_path (nova_objects_json env);
       do objs <- get_or_throw data "objects";
       if negb (truthy objs) || negb (typeof_object objs) then
         throw (plain objects_required)
       else
         do exps <- get_or_throw data "experiences";
         if negb (truthy exps) || negb (typeof_object exps) then
           throw (plain experiences_required)
         else
           perform emit (Log ("✅ Found " +:+ pretty (keys_length objs)
                                +:+ " objects"));
           ret (objs, exps))
      (λ e,
         match e with
         | ErrorObj SyntaxError m =>
             throw (plain ("Invalid JSON in nova-objects.json: " +:+ m))
         | _ => throw e
         end).

Definition getPackageVersion (env : Environment) : prog cli_event json :=
  try_catch
    (do packageJson <- read_json package_path (package_json env);
     do version <- get_or_throw packageJson "version";
     ret (js_or version (JStr "1.0.0")))
    (λ _, ret (JStr "1.0.0")).

(** [generatedAt] is the ISO rendering of the clock, [now_iso]. *)
Definition saveRegistryFile (c : Config) (env : Environment) (now_iso : string)
    (objs : json) : prog cli_event json :=
  do version <- getPackageVersion env;
  let registryData :=
    JObj [ ("metadata",
            JObj [ ("generatedAt", JStr now_iso);
                   ("orgId", orgId c);
                   ("appId", appId c);
                   ("version", version);
                   ("totalObjects", JNum (Z.of_nat (keys_length objs))) ]);
           ("objects", objs);
           ("errors", JArr []) ] in
  perform emit (WriteFile registry_path registryData);
  perform emit (Log ("📄 Registry saved to " +:+ dq +:+ registry_path +:+ dq));
  ret registryData.

Definition sync_url (c : Config) : string :=
  js_to_string (apiEndpoint c) +:+ "/api/v1/feature-flags/sync-nova-objects/".

Definition sync (c : Config) (objs exps : json) (net : fetch_result)
  : prog cli_event json :=
  perform emit (Log "🚀 Syncing to Nova backend...");
  let payload :=
    JObj [ ("organisation_id", orgId c);
           ("app_id", appId c);
           ("objects", objs);
           ("experiences", exps) ] in
  perform emit (Post (sync_url c)
                  [ ("Content-Type", "application/json");
                    ("Authorization", "Bearer " +:+ js_to_string (apiKey c)) ]
                  payload);
  match net with
  | Rejected e => throw e
  | Responded response =>
      if negb (ok response) then
        throw (plain ("Sync failed: " +:+ text_result response))
      else
        match json_result response with
        | Throw e => throw e
        | Return result =>
            perform emit (Log "✅ Sync successful!");
            ret result
        end
  end.

(** [error.message] inside a template literal. *)
Definition message_text (e : thrown) : string :=
  match e with
  | ErrorObj _ m => m
  | NonError _ => "undefined"
  end.

(** The [try] block of [run]. *)
Definition run_try (c : Config) (env : Environment) (now_iso : string)
    (net : fetch_result) : prog cli_event unit :=
  perform emit (Log "🎯 Nova Registry Sync");
  perform validateProject c env;
  do loaded <- loadObjectsFromJson env;
  if (keys_length loaded.1 =? 0)%nat then
    emit (Log "⚠️  No objects found in nova-objects.json")
  else
    perform saveRegistryFile c env now_iso loaded.1;
    perform sync c loaded.1 loaded.2 net;
    emit (Log "🎉 Complete!").

(** The [catch] block of [run]. *)
Definition run_catch (e : thrown) : prog cli_event unit :=
  perform emit (LogError ("❌ " +:+ message_text e));
  emit (Exit 1).

Definition run (c : Config) (env : Environment) (now_iso : string)
    (net : fetch_result) : prog cli_event unit :=
  try_catch (run_try c env now_iso net) run_catch.

(** [new NovaSync().run()]: the script started without [--help]. *)
Definition main (env : Environment) (now_iso : string) (net : fetch_result)
  : prog cli_event unit :=
  do c <- loadConfig env;
  run c env now_iso net.

Definition posts (t : list cli_event) : list string :=
  omap (λ e, match e with Post url _ _ => Some url | _ => None end) t.

Definition writes (t : list cli_event) : list string :=
  omap (λ e, match e with WriteFile path _ => Some path | _ => None end) t.

Definition manifest_accesses (t : list cli_event) : list cli_event :=
  List.filter (λ e, match e with
                    | Exists path | Read path => String.eqb path manifest_path
                    | _ => false
                    end) t.

Definition errors_printed (t : list cli_event) : list string :=
  omap (λ e, match e with LogError m => Some m | _ => None end) t.

Definition exits (t : list cli_event) : list nat :=
  omap (λ e, match e with Exit n => Some n | _ => None end) t.

(** The status the process ends with: the argument of the first
    [process.exit], 0 when the script runs to its end. *)
Definition exit_status (t : list cli_event) : nat := default 0%nat (head (exits t)).

(** A trace that neither posts, nor writes, nor touches the manifest,
    nor prints an error, nor exits. *)
Definition harmless (t : list cli_event) : Prop :=
  posts t = [] ∧ writes t = [] ∧ manifest_accesses t = []
  ∧ errors_printed t = [] ∧ exits t = [].

(** A project without configuration and without [package.json]. *)
Definition bare_directory : Environment :=
  {| NOVA_ORG_ID := None; NOVA_APP_ID := None; NOVA_API_KEY := None;
     NOVA_API_ENDPOINT := None;
     novarc := Absent; package_json := Absent; nova_objects_json := Absent |}.

(** A configured project whose manifest lacks the [experiences] key. *)
Definition sdk_package : json :=
  JObj [("name", JStr "shop");
        ("dependencies", JObj [("nova-react-sdk", JStr "^1.0.0")])].


(** The manifest of the specification's example, complete. *)
Definition complete_project : Environment :=
  {| NOVA_ORG_ID := Some "org-1"; NOVA_APP_ID := Some "app-1";
     NOVA_API_KEY := Some "key-1"; NOVA_API_ENDPOINT := None;
     novarc := Absent; package_json := Parsed sdk_package;
     nova_objects_json := Parsed (JObj [("objects", JObj [("x", red)]);
                                        ("experiences", JObj [])]) |}.

Definition accepted : fetch_result :=
  Responded {| status := 200; statusText := "OK"; text_result := EmptyString;
               json_result := Return (JObj [("synced", JNum 1)]) |}.

End NovaSync.
(** ** Further vocabulary for the reducer *)

(** The actions that only touch configuration, user and the two flags,
    and the actions that write the object map. *)
Definition touches_cache (a : NovaAction) : bool :=
  match a with
  | SET_DEFAULTS _ | UPDATE_OBJECT_PROPS _ _ | SET_BULK_OBJECTS _ => true
  | _ => false
  end.

Definition is_set_defaults (a : NovaAction) : bool :=
  match a with SET_DEFAULTS _ => true | _ => false end.

(** Every name an action writes is already registered in the cache. *)
Definition writes_registered (s : NovaState) (a : NovaAction) : Prop :=
  match a with
  | UPDATE_OBJECT_PROPS n _ => is_Some (objects s !! n)
  | SET_BULK_OBJECTS payload => ∀ k, is_Some (payload !! k) → is_Some (objects s !! k)
  | _ => True
  end.

(** ** The remaining operations of the provider *)

(** [v.k] outside the CLI: a [TypeError] on [null] and [undefined]. *)
Definition js_get_throw {E} (v : json) (k : string) : prog E json :=
  match js_get v k with
  | Some x => ret x
  | None => throw (ErrorObj TypeError
                     ("Cannot read properties of " +:+ js_to_string v
                        +:+ " (reading '" +:+ k +:+ "')"))
  end.

(** [fetch(url, init)] itself. *)
Definition raw_fetch (url : string) (init : RequestInit) (net : fetch_result)
  : prog event Response :=
  perform emit (Fetch url init);
  match net with
  | Rejected e => throw e
  | Responded response => ret response
  end.

(** [await response.json()] *)
Definition await_json (response : Response) : prog event json :=
  match json_result response with
  | Return v => ret v
  | Throw e => throw e
  end.

(** The request of a [fetch] called with a URL only. *)
Definition bare_request : RequestInit :=
  {| method := None; body := None; headers := ∅ |}.

(** A value of declared type [string | undefined] read from a response
    that is asserted, not checked, to have its declared shape. *)
Definition declared_string (v : json) : option string :=
  match v with
  | JStr s => Some s
  | _ => None
  end.

(** The values for which [declared_string] loses nothing: a string, or
    [undefined] and [null], which every use of the field treats alike. *)
Definition string_or_absent (v : json) : Prop :=
  match v with
  | JStr _ | JUndefined | JNull => True
  | _ => False
  end.

(** The payload that [SET_DEFAULTS] receives from [data.features || {}]:
    the reducer walks its [Object.entries]. *)
Definition defaults_payload (features : json) : gmap string json :=
  list_to_map (default [] (Object_entries (js_or features (JObj [])))).

(** How the console shows a thrown value. *)
Definition shown (e : thrown) : string :=
  match e with
  | ErrorObj PlainError m => "Error: " +:+ m
  | ErrorObj TypeError m => "TypeError: " +:+ m
  | ErrorObj SyntaxError m => "SyntaxError: " +:+ m
  | NonError v => js_to_string v
  end.

Definition defaults_failure_message (e : thrown) : string :=
  "Failed to load defaults: " +:+ error_message e.

Module NovaProviderOps.
Section Provider.
Variable state : NovaState.

Definition updateConfig (newConfig : PartialNovaConfig) : prog event unit :=
  emit (Dispatch (SET_CONFIG newConfig)).

Definition create_user_url : string :=
  apiEndpoint (config state) +:+ "/api/v1/users/create-user/".

Definition track_event_url : string :=
  apiEndpoint (config state) +:+ "/api/v1/metrics/track-event/".

Definition setUser (u : NovaUser) (net : fetch_result) : prog event unit :=
  do userResponse <-
    callApi create_user_url
      (post (JObj [ ("user_id", JStr (userId u));
                    ("organisation_id", JStr (organisationId (config state)));
                    ("app_id", JStr (appId (config state)));
                    ("user_profile", userProfile u) ])) net;
  let payload :=
    {| userId := userId u;
       userProfile := userProfile u;
       novaUserId := declared_string (js_get_opt userResponse "nova_user_id") |} in
  emit (Dispatch (SET_USER payload)).

Definition loadDefaults (net : fetch_result) : prog event unit :=
  try_catch_finally
    (perform NovaProvider.setLoading true;
     do response <- raw_fetch "/nova-objects.json" bare_request net;
     if negb (ok response) then
       throw (ErrorObj PlainError "Failed to load nova-objects.json")
     else
       do data <- await_json response;
       do features <- js_get_throw data "features";
       emit (Dispatch (SET_DEFAULTS (defaults_payload features))))
    (λ e,
       perform emit (ConsoleError ("Failed to load defaults: " +:+ shown e));
       NovaProvider.setError (Some (defaults_failure_message e)))
    (NovaProvider.setLoading false).

(** [!state.config.organisationId || !state.config.appId ||
     !state.user?.novaUserId] *)
Definition tracking_disabled : bool :=
  negb (truthy (JStr (organisationId (config state))))
  || negb (truthy (JStr (appId (config state))))
  || negb (truthy (match user state ≫= novaUserId with
                   | Some s => JStr s
                   | None => JUndefined
                   end)).

(** [now_iso] is [new Date().toISOString()]. *)
Definition trackEvent (eventName : string) (eventData : json) (now_iso : string)
    (net : fetch_result) : prog event unit :=
  if tracking_disabled then ret tt
  else
    perform callApi track_event_url
      (post (JObj [ ("organisation_id", JStr (organisationId (config state)));
                    ("app_id", JStr (appId (config state)));
                    ("user_id", match user state ≫= novaUserId with
                                | Some s => JStr s
                                | None => JUndefined
                                end);
                    ("event_name", JStr eventName);
                    ("event_data", js_or eventData (JObj []));
                    ("timestamp", JStr now_iso) ])) net;
    ret tt.

(** [initialize] of [useNovaInit]: both operations are the ones of the
    render the effect ran in. *)
Definition initialize (net_defaults net_all : fetch_result) : prog event unit :=
  perform loadDefaults net_defaults;
  perform NovaProvider.loadAllObjects state false net_all;
  ret tt.
End Provider.
End NovaProviderOps.

(** The revision of the provider that calls [fetch] directly: its
    [setUser] and its three load operations. *)
Module NovaProviderFetch.
Section Provider.
Variable state : NovaState.

Definition setUser (u : NovaUser) : prog event unit :=
  emit (Dispatch (SET_USER u)).

(** [{ method: "POST", headers: { "Content-Type": "application/json" },
      body: JSON.stringify(b) }] *)
Definition post_init (b : json) : RequestInit :=
  {| method := Some "POST"; body := Some b;
     headers := {[ "Content-Type" := "application/json" ]} |}.

Definition loadObject (objectName : string) (forceReload : bool)
    (net : fetch_result) : prog event unit :=
  match user state with
  | None => throw user_required
  | Some u =>
      if negb forceReload && NovaProvider.isObjectLoaded state objectName then
        perform emit (ConsoleLog (skip_message objectName));
        ret tt
      else
        perform NovaProvider.setLoading true;
        perform NovaProvider.setError None;
        try_catch_finally
          (do response <- raw_fetch (NovaProvider.variant_url state)
               (post_init (JObj (NovaProvider.request_fields state u
                                   ++ [("feature_name", JStr objectName)]))) net;
           if negb (ok response) then
             throw (ErrorObj PlainError
                      ("Failed to load object: " +:+ statusText response))
           else
             do data <- await_json response;
             let variantConfig := js_get_opt data "variant_config" in
             emit (Dispatch (UPDATE_OBJECT_PROPS objectName variantConfig)))
          (λ e,
             perform NovaProvider.setError (Some (load_failure_message objectName e));
             throw e)
          (NovaProvider.setLoading false)
  end.

(** The part shared by [loadObjects] and [loadAllObjects] from
    [setLoading(true)] on. *)
Definition fetch_bulk (url : string) (b : json) (net : fetch_result)
  : prog event unit :=
  perform NovaProvider.setLoading true;
  perform NovaProvider.setError None;
  try_catch_finally
    (do response <- raw_fetch url (post_init b) net;
     if negb (ok response) then
       throw (ErrorObj PlainError
                ("Failed to load objects: " +:+ statusText response))
     else
       do data <- await_json response;
       do entries <- entries_or_throw data;
       emit (Dispatch (SET_BULK_OBJECTS (foldl collect_step ∅ entries))))
    (λ e,
       perform NovaProvider.setError (Some (bulk_failure_message e));
       throw e)
    (NovaProvider.setLoading false).

Definition loadObjects (objectNames : list string) (forceReload : bool)
    (net : fetch_result) : prog event unit :=
  match user state with
  | None => throw user_required
  | Some u =>
      let toLoad := NovaProvider.objectsToLoad state objectNames forceReload in
      if (length toLoad =? 0)%nat then
        perform emit (ConsoleLog "All requested objects already loaded, skipping...");
        ret tt
      else
        fetch_bulk (NovaProvider.batch_url state)
          (JObj (NovaProvider.request_fields state u
                   ++ [("feature_names", JArr (JStr <$> toLoad))])) net
  end.

Definition loadAllObjects (forceReload : bool) (net : fetch_result)
  : prog event unit :=
  if negb forceReload && (0 <? size (objects state))%nat then
    perform emit (ConsoleLog "Objects already loaded, skipping...");
    ret tt
  else
    match user state with
    | None => throw user_required
    | Some u =>
        fetch_bulk (NovaProvider.all_url state)
          (JObj (NovaProvider.request_fields state u)) net
    end.
End Provider.
End NovaProviderFetch.

(** The one request [loadAllObjects] sends. *)
Definition all_request (state : NovaState) (u : NovaUser) : string * RequestInit :=
  (NovaProvider.all_url state,
   request_of (post (JObj (NovaProvider.request_fields state u)))).

(** How the [try] block of [loadDefaults] ends for a given behaviour of
    the network: with the [features] value of the document, or with what
    was thrown on the way. *)
Definition defaults_completion (net : fetch_result) : completion json :=
  match net with
  | Rejected e => Throw e
  | Responded response =>
      if ok response then
        match json_result response with
        | Return data =>
            match js_get data "features" with
            | Some features => Return features
            | None =>
                Throw (ErrorObj TypeError
                         ("Cannot read properties of " +:+ js_to_string data
                            +:+ " (reading 'features')"))
            end
        | Throw e => Throw e
        end
      else Throw (ErrorObj PlainError "Failed to load nova-objects.json")
  end.

(** The body [trackEvent] posts for the backend user id [id]. *)
Definition track_event_request (state : NovaState) (id eventName : string)
    (eventData : json) (now_iso : string) : string * RequestInit :=
  (NovaProviderOps.track_event_url state,
   request_of (post (JObj
     [ ("organisation_id", JStr (organisationId (config state)));
       ("app_id", JStr (appId (config state)));
       ("user_id", JStr id);
       ("event_name", JStr eventName);
       ("event_data", js_or eventData (JObj []));
       ("timestamp", JStr now_iso) ]))).

(** The request of the registering [setUser]. *)
Definition create_user_request (state : NovaState) (u : NovaUser) : string * RequestInit :=
  (NovaProviderOps.create_user_url state,
   request_of (post (JObj
     [ ("user_id", JStr (userId u));
       ("organisation_id", JStr (organisationId (config state)));
       ("app_id", JStr (appId (config state)));
       ("user_profile", userProfile u) ]))).

(** ** The script around [NovaSync] *)

Module NovaSyncScript.
Import NovaSync.

(** The help text, line by line. *)
Definition usage_lines : list string :=
  [ EmptyString;
    "Nova Registry Sync";
    EmptyString;
    "Usage:";
    "  npx nova-sync              Sync objects from nova-objects.json to dashboard";
    "  npx nova-sync --help       Show this help";
    EmptyString;
    "Required:";
    "  nova-objects.json          File with your object definitions";
    EmptyString;
    "Configuration (optional):";
    "  Environment variables:";
    "    NOVA_ORG_ID=your-org-id";
    "    NOVA_APP_ID=your-app-id  ";
    "    NOVA_API_KEY=your-api-key";
    EmptyString;
    "Example nova-objects.json:";
    "  {";
    "    " +:+ dq +:+ "objects" +:+ dq +:+ ": {";
    "      " +:+ dq +:+ "welcome-button" +:+ dq +:+ ": {";
    "        " +:+ dq +:+ "text" +:+ dq +:+ ": " +:+ dq +:+ "Welcome!" +:+ dq +:+ ",";
    "        " +:+ dq +:+ "color" +:+ dq +:+ ": " +:+ dq +:+ "blue" +:+ dq;
    "      },";
    "      " +:+ dq +:+ "game-settings" +:+ dq +:+ ": {";
    "        " +:+ dq +:+ "difficulty" +:+ dq +:+ ": " +:+ dq +:+ "medium" +:+ dq +:+ ",";
    "        " +:+ dq +:+ "coins" +:+ dq +:+ ": 100";
    "      }";
    "    }";
    "  }";
    EmptyString ].

Definition usage : string := String.concat nl usage_lines.

(** [args.includes(flag)] *)
Definition has_flag (flag : string) (args : list string) : bool :=
  existsb (String.eqb flag) args.

(** The top level of the script: [args] is [process.argv.slice(2)], and
    the environment is [process.env] as the optional [dotenv] step at the
    top of the file leaves it.  [isDryRun] and [isVerbose] are computed
    and never read. *)
Definition script (args : list string) (env : Environment) (now_iso : string)
    (net : fetch_result) : prog cli_event unit :=
  let isDryRun := has_flag "--dry-run" args in
  let isVerbose := has_flag "--verbose" args in
  if has_flag "--help" args || has_flag "-h" args then
    perform emit (Log usage);
    emit (Exit 0)
  else main env now_iso net.

(** The accesses to the file system in a trace. *)
Definition file_accesses (t : list cli_event) : list cli_event :=
  List.filter (λ e, match e with
                    | Exists _ | Read _ | WriteFile _ _ => true
                    | _ => false
                    end) t.

(** The document [saveRegistryFile] writes. *)
Definition registry_document (c : Config) (version : json) (now_iso : string)
    (objs : json) : json :=
  JObj [ ("metadata",
          JObj [ ("generatedAt", JStr now_iso);
                 ("orgId", orgId c);
                 ("appId", appId c);
                 ("version", version);
                 ("totalObjects", JNum (Z.of_nat (keys_length objs))) ]);
         ("objects", objs);
         ("errors", JArr []) ].

(** The request [sync] posts. *)
Definition sync_post (c : Config) (objs exps : json) : cli_event :=
  Post (sync_url c)
    [ ("Content-Type", "application/json");
      ("Authorization", "Bearer " +:+ js_to_string (apiKey c)) ]
    (JObj [ ("organisation_id", orgId c);
            ("app_id", appId c);
            ("objects", objs);
            ("experiences", exps) ]).

(** A section of the manifest that passes the check
    [!v || typeof v !== "object"]. *)
Definition section_ok (v : json) : bool := truthy v && typeof_object v.

(** What [getPackageVersion] returns. *)
Definition package_version (env : Environment) : json :=
  match package_json env with
  | Parsed packageJson =>
      match js_get packageJson "version" with
      | Some version => js_or version (JStr "1.0.0")
      | None => JStr "1.0.0"
      end
  | _ => JStr "1.0.0"
  end.

(** What [loadObjectsFromJson] does when the manifest is accepted. *)
Definition manifest_read (objs : json) : list cli_event :=
  [ Log "📄 Loading objects from nova-objects.json...";
    Exists manifest_path; Read manifest_path;
    Log ("✅ Found " +:+ pretty (keys_length objs) +:+ " objects") ].

(** Whether [package.json] lists the SDK, in either dependency map. *)
Definition lists_sdk (packageJson : json) : bool :=
  truthy (js_get_opt (js_get_opt packageJson "dependencies") "nova-react-sdk")
  || truthy (js_get_opt (js_get_opt packageJson "devDependencies") "nova-react-sdk").
End NovaSyncScript.

Module NovaSyncLayers.
Import NovaSync.

(** The fields a [.novarc] contributes, and those of the [nova] block of
    [package.json]; a file that is missing, unreadable as JSON or not an
    object contributes none. *)
Definition rc_layer (env : Environment) : list (string * json) :=
  match novarc env with
  | Parsed (JObj l) => l
  | _ => []
  end.

Definition nova_layer (env : Environment) : list (string * json) :=
  match package_json env with
  | Parsed packageJson =>
      match js_get packageJson "nova" with
      | Some (JObj l) => l
      | _ => []
      end
  | _ => []
  end.

(** A field resolved through the three layers, the later layer winning. *)
Definition layered (env : Environment) (field : string) (from_env : json) : json :=
  default (default from_env (assoc field (rc_layer env)))
    (assoc field (nova_layer env)).
End NovaSyncLayers.

(** ** Helper functions (helpers/NovaObjectHelpers.ts) *)

(** [a && b] on values. *)
Definition js_and (a b : json) : json := if truthy a then b else a.

(** [typeof v === "string"] *)
Definition typeof_string (v : json) : bool :=
  match v with JStr _ => true | _ => false end.

Definition defineNovaObject (name : string) (defaultProps : json) : json :=
  JObj [("name", JStr name); ("defaultProps", defaultProps)].

(** The chain of [&&] of the type guard; its value is the first falsy
    operand, or the last operand. *)
Definition isValidNovaObject (obj : json) : json :=
  js_and
    (js_and
       (js_and
          (js_and obj (JBool (typeof_object obj)))
          (JBool (typeof_string (js_get_opt obj "name"))))
       (js_get_opt obj "defaultProps"))
    (JBool (typeof_object (js_get_opt obj "defaultProps"))).

(** An object or an array. *)
Definition is_object_value (v : json) : Prop :=
  match v with
  | JObj _ | JArr _ => True
  | _ => False
  end.

(** ** Sample data for the worked instances *)

Definition hero_variant : fetch_result :=
  Responded {| status := 200; statusText := "OK"; text_result := EmptyString;
               json_result := Return (JObj [("feature_name", JStr "hero");
                                            ("variant_config", red)]) |}.

Definition bare_variant : fetch_result :=
  Responded {| status := 200; statusText := "OK"; text_result := EmptyString;
               json_result := Return (JObj [("feature_name", JStr "hero")]) |}.

Definition not_found : Response :=
  {| status := 404; statusText := "Not Found"; text_result := "no such route";
     json_result := Throw (ErrorObj SyntaxError "Unexpected token") |}.

Definition defaults_document : fetch_result :=
  Responded {| status := 200; statusText := "OK"; text_result := EmptyString;
               json_result := Return (JObj [("features",
                                             JObj [("hero", red)])]) |}.

Definition registered_user : NovaUser :=
  {| userId := "u-1"; userProfile := JNull; novaUserId := Some "n-1" |}.

Definition complete_config : NovaSync.Config :=
  {| NovaSync.orgId := JStr "org-1"; NovaSync.appId := JStr "app-1";
     NovaSync.apiKey := JStr "key-1";
     NovaSync.apiEndpoint := JStr "https://api.nova.com" |}.

(** The complete project with an empty [objects] section, and with no
    manifest at all. *)
Definition empty_objects_project : NovaSync.Environment :=
  {| NovaSync.NOVA_ORG_ID := Some "org-1"; NovaSync.NOVA_APP_ID := Some "app-1";
     NovaSync.NOVA_API_KEY := Some "key-1"; NovaSync.NOVA_API_ENDPOINT := None;
     NovaSync.novarc := NovaSync.Absent;
     NovaSync.package_json := NovaSync.Parsed NovaSync.sdk_package;
     NovaSync.nova_objects_json :=
       NovaSync.Parsed (JObj [("objects", JObj []); ("experiences", JObj [])]) |}.

Definition no_manifest_project : NovaSync.Environment :=
  {| NovaSync.NOVA_ORG_ID := Some "org-1"; NovaSync.NOVA_APP_ID := Some "app-1";
     NovaSync.NOVA_API_KEY := Some "key-1"; NovaSync.NOVA_API_ENDPOINT := None;
     NovaSync.novarc := NovaSync.Absent;
     NovaSync.package_json := NovaSync.Parsed NovaSync.sdk_package;
     NovaSync.nova_objects_json := NovaSync.Absent |}.

(** States the store reaches from [initialState]: after [setUser], then
    after a first load of [hero]; and after a defaults document that
    lists the name [constructor]. *)
Definition signed_in : NovaState :=
  novaReducer 0 (initialState demo_config) (SET_USER demo_user).

Definition hero_fetched : NovaState :=
  novaReducer 5 signed_in (UPDATE_OBJECT_PROPS "hero" blue).


(** A backend answer that carries [banner] only. *)
Definition banner_only : fetch_result :=
  Responded {| status := 200; statusText := "OK"; text_result := EmptyString;
               json_result := Return (JObj
                 [("banner", JObj [("variant_config", blue)])]) |}.

(** * Properties *)

(** ** The definitions at work *)

Example truthy_of_empty_object : truthy (JObj []) = true ∧ truthy (JStr EmptyString) = false.
Proof. split; reflexivity. Qed.

Example entries_of_array :
  Object_entries (JArr [JNull; JBool true]) = Some [("0", JNull); ("1", JBool true)].
Proof. reflexivity. Qed.

Example collect_skips_empty_name :
  foldl collect_step ∅ [(EmptyString, JObj [("variant_config", blue)]);
                         ("hero", JObj [("variant_config", red)]);
                         ("banner", JNull)]
  = {[ "hero" := red; "banner" := JObj [] ]}.
Proof. vm_compute. reflexivity. Qed.

Example bulk_update_marks_loaded :
  objects (novaReducer 42 (state_with None {[ "hero" := unloaded_hero ]} false)
             (SET_BULK_OBJECTS {[ "hero" := blue ]})) !! "hero"
  = Some {| name := Some "hero"; defaultProps := Some red; props := blue;
            isLoaded := true; lastFetched := Some 42 |}.
Proof. vm_compute. reflexivity. Qed.

Example loadObject_success :
  NovaProvider.loadObject (state_with (Some demo_user) ∅ false) "hero" false
    (Responded {| status := 200; statusText := "OK"; text_result := EmptyString;
                  json_result := Return (JObj [("variant_config", red)]) |})
  = ([Dispatch (SET_LOADING true); Dispatch (SET_ERROR None);
      Fetch "https://nova.example/api/v1/user-experience/get-variant/"
        {| method := Some "POST";
           body := Some (JObj [("organisation_id", JStr "org-1");
                               ("app_id", JStr "app-1");
                               ("user_id", JStr "u-1");
                               ("payload", JObj []);
                               ("feature_name", JStr "hero")]);
           headers := {[ "Content-Type" := "application/json" ]} |};
      Dispatch (UPDATE_OBJECT_PROPS "hero" red);
      Dispatch (SET_LOADING false)],
     Return (JObj [("variant_config", red)])).
Proof. vm_compute. reflexivity. Qed.

Example sync_of_complete_project :
  let t := (NovaSync.main NovaSync.complete_project "2025-01-01T00:00:00.000Z"
              NovaSync.accepted).1 in
  NovaSync.exit_status t = 0%nat
  ∧ NovaSync.posts t = ["https://api.nova.com/api/v1/feature-flags/sync-nova-objects/"]
  ∧ NovaSync.writes t = ["nova-registry.json"]
  ∧ NovaSync.errors_printed t = [].
Proof. vm_compute. repeat split; reflexivity. Qed.

(** ** The reducer *)

Lemma set_defaults_loop_lookup (l : list (string * json)) :
  NoDup l.*1 →
  ∀ (acc : gmap string NovaObject) k,
    (∀ k', k' ∈ l.*1 → acc !! k' = None) →
    foldl set_defaults_step acc l !! k =
      match (list_to_map l : gmap string json) !! k with
      | Some v => if inherited k then Some (defaults_only k v) else acc !! k
      | None => acc !! k
      end.
Proof.
  induction l as [|[k0 v0] l IH]; intros Hnd acc k Hacc; simpl.
  - by rewrite lookup_empty.
  - apply NoDup_cons in Hnd as [Hk0 Hnd].
    rewrite (Hacc k0) by (rewrite fmap_cons; apply elem_of_cons; by left).
    assert (Hrest : ∀ k', k' ∈ l.*1 → k' ≠ k0) by (intros k' Hin ->; done).
    destruct (inherited k0) eqn:Hi.
    + rewrite IH; [|done|].
      * destruct (decide (k = k0)) as [->|Hne].
        -- rewrite (not_elem_of_list_to_map_1 l k0 Hk0), !lookup_insert_eq.
           by rewrite Hi.
        -- by rewrite !(lookup_insert_ne _ k0 k) by done.
      * intros k' Hin. rewrite lookup_insert_ne by (by apply not_eq_sym, Hrest).
        apply Hacc. rewrite fmap_cons. apply elem_of_cons. by right.
    + rewrite IH; [|done|].
      * destruct (decide (k = k0)) as [->|Hne].
        -- rewrite (not_elem_of_list_to_map_1 l k0 Hk0), lookup_insert_eq.
           by rewrite Hi.
        -- by rewrite (lookup_insert_ne _ k0 k) by done.
      * intros k' Hin. apply Hacc. rewrite fmap_cons. apply elem_of_cons. by right.
Qed.

(** The entries SET_DEFAULTS leaves: one for each payload key that names
    an inherited member, none for any other key. *)
Lemma set_defaults_lookup (payload : gmap string json) k :
  foldl set_defaults_step ∅ (map_to_list payload) !! k
  = if inherited k then defaults_only k <$> payload !! k else None.
Proof.
  rewrite set_defaults_loop_lookup; [|apply NoDup_fst_map_to_list|done].
  rewrite list_to_map_to_list, lookup_empty.
  by destruct (payload !! k), (inherited k).
Qed.

Lemma set_defaults_empty (payload : gmap string json) :
  (∀ k, is_Some (payload !! k) → inherited k = false) →
  foldl set_defaults_step ∅ (map_to_list payload) = ∅.
Proof.
  intros Hown. apply map_eq. intros k.
  rewrite set_defaults_lookup, lookup_empty.
  destruct (inherited k) eqn:Hi; [|done].
  destruct (payload !! k) as [v|] eqn:Hk; [|done].
  rewrite Hown in Hi by (by eexists). discriminate Hi.
Qed.

Lemma set_bulk_loop_lookup now (l : list (string * json)) :
  NoDup l.*1 →
  ∀ (acc : gmap string NovaObject) k,
    foldl (set_bulk_step now) acc l !! k =
      match (list_to_map l : gmap string json) !! k with
      | Some v => Some (with_fetched now (acc !! k) v)
      | None => acc !! k
      end.
Proof.
  induction l as [|[k0 v0] l IH]; intros Hnd acc k; simpl.
  - by rewrite lookup_empty.
  - apply NoDup_cons in Hnd as [Hk0 Hnd].
    rewrite (IH Hnd). destruct (decide (k = k0)) as [->|Hne].
    + rewrite lookup_insert_eq.
      rewrite (not_elem_of_list_to_map_1 l k0 Hk0).
      by rewrite lookup_insert_eq.
    + rewrite !(lookup_insert_ne _ k0 k) by done. done.
Qed.

Lemma set_bulk_lookup now (m : gmap string NovaObject) (payload : gmap string json) k :
  foldl (set_bulk_step now) m (map_to_list payload) !! k =
    match payload !! k with
    | Some v => Some (with_fetched now (m !! k) v)
    | None => m !! k
    end.
Proof.
  rewrite set_bulk_loop_lookup by apply NoDup_fst_map_to_list.
  by rewrite list_to_map_to_list.
Qed.

Lemma reducer_bulk_lookup now s payload k :
  objects (novaReducer now s (SET_BULK_OBJECTS payload)) !! k =
    match payload !! k with
    | Some v => Some (with_fetched now (objects s !! k) v)
    | None => objects s !! k
    end.
Proof. apply set_bulk_lookup. Qed.

(** C1.  The set-defaults action does not produce the manifest entries:
    the guard [if (newObjects[objectName])] is evaluated on the map
    created empty one line above, so for a name that [Object.prototype]
    does not define the loop body never runs.  For every payload none of
    whose keys names an inherited member, the resulting object map is
    empty.  In particular, for the payload that maps [welcome-button] to
    its default properties the resulting map has no [welcome-button]
    entry. *)
Theorem C1_set_defaults_yields_empty_map :
  (∀ now state payload,
     (∀ k, is_Some (payload !! k) → inherited k = false) →
     objects (novaReducer now state (SET_DEFAULTS payload)) = ∅) ∧
  objects (novaReducer 0 (initialState demo_config)
             (SET_DEFAULTS {[ "welcome-button" := red ]})) !! "welcome-button" = None.
Proof.
  split.
  - intros now state payload Hown. simpl. by apply set_defaults_empty.
  - simpl. by rewrite set_defaults_lookup.
Qed.



(** ** The reducer over the store: nothing that existed is written *)

Section StoreLoops.
Variable now : Z.
Variable l : Store.loc.




End StoreLoops.




Lemma unstamp_with_fetched now now' old p :
  unstamp_object (with_fetched now old p) = unstamp_object (with_fetched now' old p).
Proof. done. Qed.




(** ** The transport helper and the loader: what each call does *)

Lemma callApi_eq url o net :
  callApi url o net = ([Fetch url (request_of o)], api_completion net).
Proof.
  unfold callApi, api_completion. destruct net as [e|r]; simpl; [done|].
  destruct (ok r); simpl; [|done]. by destruct (json_result r).
Qed.

Section LoaderTraces.
Variable state : NovaState.
Variable u : NovaUser.
Hypothesis user_set : user state = Some u.

Lemma loadObject_skips nm :
  NovaProvider.isObjectLoaded state nm = true →
  ∀ net, NovaProvider.loadObject state nm false net
         = ([ConsoleLog (skip_message nm)], Return JNull).
Proof.
  intros Hl net. unfold NovaProvider.loadObject. by rewrite user_set, Hl.
Qed.

Lemma loadObject_fetching nm force net :
  negb force && NovaProvider.isObjectLoaded state nm = false →
  NovaProvider.loadObject state nm force net =
    match api_completion net with
    | Return data =>
        ([Dispatch (SET_LOADING true); Dispatch (SET_ERROR None);
          Fetch (variant_request state u nm).1 (variant_request state u nm).2;
          Dispatch (UPDATE_OBJECT_PROPS nm (js_get_opt data "variant_config"));
          Dispatch (SET_LOADING false)], Return data)
    | Throw e =>
        ([Dispatch (SET_LOADING true); Dispatch (SET_ERROR None);
          Fetch (variant_request state u nm).1 (variant_request state u nm).2;
          Dispatch (SET_ERROR (Some (load_failure_message nm e)));
          Dispatch (SET_LOADING false)], Throw e)
    end.
Proof.
  intros Hb. unfold NovaProvider.loadObject. rewrite user_set, Hb.
  rewrite callApi_eq. by destruct (api_completion net).
Qed.
End LoaderTraces.

Lemma variant_request_eq state u nm :
  variant_request state u nm = single_variant_fetch (config state) u nm.
Proof.
  unfold variant_request, single_variant_fetch, request_of, post. simpl.
  by rewrite (left_id_L ∅ (∪)).
Qed.

Lemma batch_request_eq state u names :
  batch_request state u names = batch_fetch (config state) u names.
Proof.
  unfold batch_request, batch_fetch, request_of, post. simpl.
  by rewrite (left_id_L ∅ (∪)).
Qed.

(** The loaded test of the facade agrees with the flag stored in the
    cache. *)
Lemma isObjectLoaded_marked state nm :
  NovaProvider.isObjectLoaded state nm = true ↔ marked_loaded state nm.
Proof.
  unfold NovaProvider.isObjectLoaded, marked_loaded. split.
  - destruct (objects state !! nm) as [o|]; [|done]. intros Hl. by exists o.
  - intros (o & -> & Hl). done.
Qed.

Lemma isObjectLoaded_not_marked state nm :
  NovaProvider.isObjectLoaded state nm = false ↔ ¬ marked_loaded state nm.
Proof.
  rewrite <- isObjectLoaded_marked.
  by destruct (NovaProvider.isObjectLoaded state nm).
Qed.

(** C5, as stated, fails when no user is set: [hero] is not marked loaded
    (the cache is empty), yet [loadObject] sends no request at all and
    throws the precondition error. *)
Lemma C5_counterexample_no_user :
  let state := initialState demo_config in
  user state = None
  ∧ objects state !! "hero" = None
  ∧ NovaProvider.loadObject state "hero" false hero_variant
    = ([], Throw user_required)
  ∧ length (fetches (NovaProvider.loadObject state "hero" false hero_variant).1)
    ≠ 1%nat.
Proof. repeat split; try reflexivity. intros H. discriminate H. Qed.

(** C5, amended.  With a user set: for a name that is not marked loaded
    (no entry, or an entry whose [isLoaded] flag is down) [loadObject]
    sends exactly one request, the POST to the single-variant endpoint
    that names the object, whatever [forceReload] is; for a name whose
    entry has the [isLoaded] flag up, the call without [forceReload] only
    logs that it skips: it sends nothing, dispatches nothing and so
    leaves the store as it was, and the call with [forceReload = true]
    sends the request again. *)
Theorem C5_loadObject_fetches_once_or_skips
    (state : NovaState) (u : NovaUser) (nm : string) (net : fetch_result) :
  user state = Some u →
  (¬ marked_loaded state nm →
     ∀ force, fetches (NovaProvider.loadObject state nm force net).1
              = [single_variant_fetch (config state) u nm])
  ∧ (marked_loaded state nm →
       NovaProvider.loadObject state nm false net
       = ([ConsoleLog (skip_message nm)], Return JNull)
       ∧ fetches (NovaProvider.loadObject state nm false net).1 = []
       ∧ dispatched (NovaProvider.loadObject state nm false net).1 = []
       ∧ (∀ clock, state_after clock state
                     (NovaProvider.loadObject state nm false net).1 = state)
       ∧ fetches (NovaProvider.loadObject state nm true net).1
         = [single_variant_fetch (config state) u nm]).
Proof.
  intros Hu. rewrite <- variant_request_eq. split.
  - intros Hl force. apply isObjectLoaded_not_marked in Hl.
    rewrite (loadObject_fetching state u Hu) by (rewrite Hl; by destruct force).
    by destruct (api_completion net).
  - intros Hl. apply isObjectLoaded_marked in Hl.
    rewrite (loadObject_skips state u Hu nm Hl).
    repeat split; try done.
    rewrite (loadObject_fetching state u Hu) by done.
    by destruct (api_completion net).
Qed.

(** C7, as stated, fails on the skip path: [loadObject] returns before it
    ever touches the loading flag, so a flag that was up when the call was
    made (another load in flight) is still up when the call returns. *)
Lemma C7_counterexample_skip_keeps_flag :
  let state := state_with (Some demo_user) {[ "hero" := loaded_hero ]} true in
  isLoading state = true
  ∧ (NovaProvider.loadObject state "hero" false offline).2 = Return JNull
  ∧ isLoading (state_after still_clock state
                 (NovaProvider.loadObject state "hero" false offline).1) = true.
Proof. repeat split; reflexivity. Qed.

(** C7, amended.  Whenever [loadObject] gets to the request (user set, and
    the name not loaded or [forceReload]), the loading flag is false once
    the dispatched actions are processed, on success as on failure; when
    the request fails, the failure message built from the original error
    is put in the error slot and the original error is re-thrown, the
    dispatch preceding the throw; on success the data is returned and the
    error slot is empty.  On the skip path, and when no user is set,
    nothing is dispatched and the flag keeps the value it had. *)
Theorem C7_loadObject_error_slot_and_loading_flag
    (state : NovaState) (nm : string) (force : bool) (net : fetch_result)
    (clock : nat → Z) :
  let t := (NovaProvider.loadObject state nm force net).1 in
  let r := (NovaProvider.loadObject state nm force net).2 in
  (∀ u, user state = Some u →
        negb force && NovaProvider.isObjectLoaded state nm = false →
        isLoading (state_after clock state t) = false
        ∧ (∀ e, api_completion net = Throw e →
                r = Throw e
                ∧ error (state_after clock state t)
                  = Some (load_failure_message nm e)
                ∧ last (dispatched t) = Some (SET_LOADING false)
                ∧ Dispatch (SET_ERROR (Some (load_failure_message nm e))) ∈ t)
        ∧ (∀ data, api_completion net = Return data →
                   r = Return data ∧ error (state_after clock state t) = None))
  ∧ (∀ u, user state = Some u →
          negb force && NovaProvider.isObjectLoaded state nm = true →
          r = Return JNull ∧ dispatched t = []
          ∧ isLoading (state_after clock state t) = isLoading state)
  ∧ (user state = None →
       r = Throw user_required ∧ dispatched t = []
       ∧ isLoading (state_after clock state t) = isLoading state).
Proof.
  intros t r. subst t r. split; [|split].
  - intros u Hu Hb. rewrite (loadObject_fetching state u Hu nm force net Hb).
    destruct (api_completion net) as [data|e]; simpl.
    + split; [done|]. split; [intros e He; discriminate He|].
      intros d Hd. by inversion Hd.
    + split; [done|]. split; [|intros d Hd; discriminate Hd].
      intros e' He. inversion He; subst e'.
      repeat split; try done. rewrite !elem_of_cons. tauto.
  - intros u Hu Hb. apply andb_true_iff in Hb as [Hf Hl].
    destruct force; [done|].
    by rewrite (loadObject_skips state u Hu nm Hl).
  - intros Hu. unfold NovaProvider.loadObject. by rewrite Hu.
Qed.

Lemma bind_ret_r {E A} (c : prog E A) : (do v <- c; ret v) = c.
Proof.
  destruct c as [t [v|e]]; simpl; [|done]. by rewrite app_nil_r.
Qed.



(** C4, as stated, fails for [loadAllObjects]: the skip test on a
    non-empty cache comes before the user test, so without a user and
    without [forceReload] the call returns an empty result instead of
    failing. *)
Lemma C4_counterexample_loadAll_skips_without_user :
  let state := state_with None {[ "hero" := unloaded_hero ]} false in
  user state = None
  ∧ NovaProvider.loadAllObjects state false offline
    = ([ConsoleLog "Objects already loaded, skipping..."], Return ∅).
Proof. split; reflexivity. Qed.

(** C4, amended.  With no user set, [loadObject] and [loadObjects] always
    fail with the precondition error, and so does [loadAllObjects] when it
    is forced or the cache is empty; [loadAllObjects] without
    [forceReload] on a non-empty cache returns the empty result instead.
    None of the three sends a request or dispatches an action. *)
Theorem C4_no_user_no_network (state : NovaState) :
  user state = None →
  (∀ nm force net,
     NovaProvider.loadObject state nm force net = ([], Throw user_required))
  ∧ (∀ names force net,
       NovaProvider.loadObjects state names force net = ([], Throw user_required))
  ∧ (∀ force net, force = true ∨ objects state = ∅ →
       NovaProvider.loadAllObjects state force net = ([], Throw user_required))
  ∧ (∀ net, objects state ≠ ∅ →
       NovaProvider.loadAllObjects state false net
       = ([ConsoleLog "Objects already loaded, skipping..."], Return ∅))
  ∧ (∀ force net,
       fetches (NovaProvider.loadAllObjects state force net).1 = []
       ∧ dispatched (NovaProvider.loadAllObjects state force net).1 = []).
Proof.
  intros Hu.
  assert (Hsize : objects state ≠ ∅ → (0 <? size (objects state))%nat = true).
  { intros Hne. apply Nat.ltb_lt.
    destruct (decide (size (objects state) = 0%nat)) as [Hz|Hz]; [|lia].
    by apply map_size_empty_iff in Hz. }
  split; [|split; [|split; [|split]]].
  - intros. unfold NovaProvider.loadObject. by rewrite Hu.
  - intros. unfold NovaProvider.loadObjects. by rewrite Hu.
  - intros force net [->|He]; unfold NovaProvider.loadAllObjects.
    + by rewrite Hu.
    + rewrite He, map_size_empty, Hu. by rewrite andb_false_r.
  - intros net Hne. unfold NovaProvider.loadAllObjects.
    by rewrite (Hsize Hne).
  - intros force net. unfold NovaProvider.loadAllObjects. rewrite Hu.
    by destruct (negb force && (0 <? size (objects state))%nat).
Qed.

Lemma collect_loop_other (entries : list (string * json)) k :
  k ∉ entries.*1 →
  ∀ acc : gmap string json, foldl collect_step acc entries !! k = acc !! k.
Proof.
  induction entries as [|[k0 v0] entries IH]; intros Hk acc; [done|].
  rewrite fmap_cons in Hk. apply not_elem_of_cons in Hk as [Hne Hk].
  simpl. rewrite (IH Hk).
  destruct (negb _); [by rewrite lookup_insert_ne|done].
Qed.

Lemma fetch_bulk_eq url b net :
  NovaProvider.fetch_bulk url b net =
    match api_completion net with
    | Return data =>
        match Object_entries data with
        | Some entries =>
            (bulk_prefix url b
               ++ [Dispatch (SET_BULK_OBJECTS (foldl collect_step ∅ entries));
                   Dispatch (SET_LOADING false)],
             Return (foldl collect_step ∅ entries))
        | None =>
            let e := ErrorObj TypeError "Cannot convert undefined or null to object" in
            (bulk_prefix url b
               ++ [Dispatch (SET_ERROR (Some (bulk_failure_message e)));
                   Dispatch (SET_LOADING false)], Throw e)
        end
    | Throw e =>
        (bulk_prefix url b
           ++ [Dispatch (SET_ERROR (Some (bulk_failure_message e)));
               Dispatch (SET_LOADING false)], Throw e)
    end.
Proof.
  unfold NovaProvider.fetch_bulk. rewrite callApi_eq.
  destruct (api_completion net) as [data|e]; simpl; [|done].
  unfold entries_or_throw. by destruct (Object_entries data).
Qed.

(** Case analysis on the membership of an event in an explicit trace. *)
Ltac in_trace H :=
  simpl in H;
  repeat (apply elem_of_cons in H as [H|H]; [try discriminate H|]);
  try (by apply elem_of_nil in H).

Lemma collect_loop_dom (entries : list (string * json)) k :
  is_Some (foldl collect_step (∅ : gmap string json) entries !! k) → k ∈ entries.*1.
Proof.
  intros Hs. destruct (decide (k ∈ entries.*1)) as [|Hn]; [done|].
  rewrite (collect_loop_other entries k Hn), lookup_empty in Hs.
  by destruct Hs.
Qed.

Lemma collect_loop_is_Some (entries : list (string * json)) :
  ∀ (acc : gmap string json) k,
    is_Some (foldl collect_step acc entries !! k)
    ↔ is_Some (acc !! k) ∨ (k ∈ entries.*1 ∧ k ≠ EmptyString).
Proof.
  induction entries as [|[k0 x0] entries IH]; intros acc k.
  - simpl. rewrite elem_of_nil. tauto.
  - cbn [foldl]. rewrite IH, fmap_cons, elem_of_cons. unfold collect_step.
    cbn [fst truthy].
    destruct (String.eqb_spec k0 EmptyString) as [->|Hk0]; cbn [negb].
    + tauto.
    + rewrite lookup_insert_is_Some.
      destruct (decide (k = k0)) as [->|Hne]; [tauto|].
      intuition congruence.
Qed.

Lemma collect_loop_lookup (entries : list (string * json)) k x :
  (k, x) ∈ entries → NoDup entries.*1 → k ≠ EmptyString →
  ∀ acc : gmap string json,
    foldl collect_step acc entries !! k
    = Some (js_or (js_get_opt x "variant_config") (JObj [])).
Proof.
  intros Hin Hnd Hk.
  induction entries as [|[k0 x0] entries IH]; intros acc.
  - by apply elem_of_nil in Hin.
  - rewrite fmap_cons in Hnd. apply NoDup_cons in Hnd as [Hk0 Hnd].
    cbn [foldl]. apply elem_of_cons in Hin as [[= <- <-]|Hin].
    + rewrite (collect_loop_other entries k Hk0). unfold collect_step.
      cbn [truthy]. destruct (String.eqb_spec k EmptyString) as [|_]; [done|].
      cbn [negb]. by rewrite lookup_insert_eq.
    + by apply IH.
Qed.

Lemma objectsToLoad_eq state names :
  NovaProvider.objectsToLoad state names false = not_marked_loaded state names.
Proof.
  unfold NovaProvider.objectsToLoad, not_marked_loaded, NovaProvider.isObjectLoaded.
  apply List.filter_ext. intros n. by destruct (objects state !! n).
Qed.

Lemma not_marked_loaded_spec state names n :
  n ∈ not_marked_loaded state names ↔ n ∈ names ∧ ¬ marked_loaded state n.
Proof.
  unfold not_marked_loaded, marked_loaded.
  rewrite !list_elem_of_In, filter_In.
  destruct (objects state !! n) as [o|]; split; intros [Hin H]; split; try done.
  - intros (o' & [= <-] & Hl). by rewrite Hl in H.
  - destruct (isLoaded o) eqn:Hl; [|done]. exfalso. apply H. by exists o.
  - by intros (o' & [=] & _).
Qed.

(** C6, as stated, fails: the bulk update is keyed by what the backend
    returns, not by what was asked for.  [hero] is loaded, so only
    [banner] is requested; the answer carries [hero] as well, and the
    entry of [hero] is overwritten. *)
Lemma C6_counterexample_excluded_name_overwritten :
  let state := hero_fetched in
  let t := (NovaProvider.loadObjects state ["hero"; "banner"] false two_variants).1 in
  isLoaded <$> objects state !! "hero" = Some true
  ∧ fetches t = [batch_fetch demo_config demo_user ["banner"]]
  ∧ props <$> objects state !! "hero" = Some blue
  ∧ props <$> objects (state_after still_clock state t) !! "hero" = Some red.
Proof. repeat split; vm_compute; reflexivity. Qed.

(** C6, amended.  With a user set, [loadObjects] without [forceReload]
    asks the batch endpoint, in one POST, for exactly the requested names
    that are not marked loaded (no entry, or an entry whose [isLoaded]
    flag is down); when there is none it sends nothing and dispatches
    nothing.  When the request is answered with a document (none of
    whose keys is [__proto__], which an assignment treats as the
    prototype), it dispatches one bulk update, between raising and
    lowering the loading flag, whose payload holds exactly the non-empty
    names the response carries, and returns that payload; in the
    resulting store each of these names is marked loaded with the
    payload's props, and every other entry is as it was.  Whatever the
    answer, the entry of every name that the
    response does not carry is left unchanged; a name excluded by the
    filter keeps its entry provided the backend does not return it. *)
Theorem C6_loadObjects_filters_and_frames
    (state : NovaState) (u : NovaUser) (names : list string)
    (net : fetch_result) (clock : nat → Z) :
  user state = Some u →
  let toLoad := not_marked_loaded state names in
  let c := NovaProvider.loadObjects state names false net in
  let s' := state_after clock state c.1 in
  (∀ n, n ∈ toLoad ↔ n ∈ names ∧ ¬ marked_loaded state n)
  ∧ (toLoad = [] →
       fetches c.1 = [] ∧ dispatched c.1 = [] ∧ s' = state)
  ∧ (toLoad ≠ [] → fetches c.1 = [batch_fetch (config state) u toLoad])
  ∧ (∀ data entries, toLoad ≠ [] →
       api_completion net = Return data → Object_entries data = Some entries →
       "__proto__" ∉ entries.*1 →
       ∃ collected : gmap string json,
         dispatched c.1 = [SET_LOADING true; SET_ERROR None;
                           SET_BULK_OBJECTS collected; SET_LOADING false]
         ∧ c.2 = Return collected
         ∧ (∀ k, is_Some (collected !! k) ↔ k ∈ entries.*1 ∧ k ≠ EmptyString)
         ∧ (∀ k x, (k, x) ∈ entries → NoDup entries.*1 → k ≠ EmptyString →
              collected !! k
              = Some (js_or (js_get_opt x "variant_config") (JObj [])))
         ∧ (∀ k, objects s' !! k
                 = match collected !! k with
                   | Some v => Some (with_fetched (clock 2%nat) (objects state !! k) v)
                   | None => objects state !! k
                   end))
  ∧ (∀ payload k, Dispatch (SET_BULK_OBJECTS payload) ∈ c.1 →
       is_Some (payload !! k) → k ∈ returned_names net)
  ∧ (∀ k, k ∉ returned_names net → objects s' !! k = objects state !! k)
  ∧ (∀ n o, n ∈ names → objects state !! n = Some o → isLoaded o = true →
       n ∉ returned_names net → objects s' !! n = Some o).
Proof.
  intros Hu toLoad c s'.
  assert (Hc : c = if (length toLoad =? 0)%nat
                   then ([ConsoleLog "All requested objects already loaded, skipping..."],
                         Return ∅)
                   else NovaProvider.fetch_bulk (batch_request state u toLoad).1
                          (JObj (NovaProvider.request_fields state u
                                   ++ [("feature_names", JArr (JStr <$> toLoad))]))
                          net).
  { subst c. unfold NovaProvider.loadObjects. rewrite Hu, objectsToLoad_eq.
    fold toLoad. by destruct (length toLoad =? 0)%nat. }
  assert (Hframe : ∀ k, k ∉ returned_names net →
                        objects s' !! k = objects state !! k).
  { intros k Hk. subst s'. rewrite Hc.
    destruct (length toLoad =? 0)%nat; [done|].
    rewrite fetch_bulk_eq. unfold returned_names in Hk.
    destruct (api_completion net) as [data|e]; [|done].
    destruct (Object_entries data) as [entries|]; [|done].
    simpl in Hk. unfold state_after. simpl.
    rewrite set_bulk_lookup.
    by rewrite (collect_loop_other entries k Hk), lookup_empty. }
  split; [|split; [|split; [|split; [|split; [|split]]]]].
  - intros n. apply not_marked_loaded_spec.
  - intros He. subst s'. rewrite Hc, He. done.
  - intros Hne. rewrite Hc, <- batch_request_eq.
    destruct toLoad as [|n0 rest]; [done|]. simpl.
    rewrite fetch_bulk_eq.
    destruct (api_completion net) as [data|e]; [|done].
    by destruct (Object_entries data).
  - intros data entries Hne Ha He _.
    exists (foldl collect_step ∅ entries). subst s'. rewrite Hc.
    destruct toLoad as [|n0 rest]; [done|]. simpl.
    rewrite fetch_bulk_eq, Ha, He.
    split; [done|]. split; [done|]. split; [|split].
    + intros k. rewrite collect_loop_is_Some, lookup_empty.
      split; [intros [[? [=]]|?]; done|by right].
    + intros k x Hin Hnd Hk. by apply collect_loop_lookup.
    + intros k. unfold state_after. simpl. apply set_bulk_lookup.
  - intros payload k Hin Hs. rewrite Hc in Hin.
    destruct (length toLoad =? 0)%nat; [in_trace Hin|].
    rewrite fetch_bulk_eq in Hin. unfold returned_names.
    destruct (api_completion net) as [data|e]; [|in_trace Hin].
    destruct (Object_entries data) as [entries|]; [|in_trace Hin].
    simpl in Hin. in_trace Hin. inversion Hin; subst payload.
    by apply collect_loop_dom.
  - exact Hframe.
  - intros n o _ Ho _ Hn. by rewrite Hframe.
Qed.

(** ** The transport helper *)

(** C8, as stated, fails on the header: the caller's headers are spread
    after the default entry, so an [options.headers] with its own
    [Content-Type] replaces the JSON one. *)
Lemma C8_counterexample_header_overridden :
  headers (request_of plain_text_options) !! content_type = Some "text/plain"
  ∧ fetches (callApi "https://nova.example/ping" plain_text_options offline).1
    = [("https://nova.example/ping", request_of plain_text_options)]
  ∧ headers (request_of plain_text_options) !! content_type ≠ Some application_json.
Proof.
  split; [reflexivity|]. split; [reflexivity|].
  intros H. vm_compute in H. discriminate H.
Qed.

(** C8, amended.  [callApi] sends one request, to the given URL, with the
    caller's method and body; its [Content-Type] header is
    [application/json] unless the caller's own headers carry a
    [Content-Type], which then wins.  A response whose status lies outside
    200-299 makes the call fail with the error
    [API error: <status> - <statusText>]; a response inside that range
    yields whatever JSON value the body parses to, unchecked. *)
Theorem C8_callApi_contract (url : string) (options : CallOptions) (net : fetch_result) :
  fetches (callApi url options net).1 = [(url, request_of options)]
  ∧ method (request_of options) = opt_method options
  ∧ body (request_of options) = opt_body options
  ∧ headers (request_of options) !! content_type
    = Some (default application_json (own_content_type options))
  ∧ (∀ r, net = Responded r →
       (ok r = true ↔ (200 ≤ status r ≤ 299)%nat)
       ∧ (ok r = false →
            (callApi url options net).2
            = Throw (ErrorObj PlainError
                       ("API error: " +:+ pretty (status r) +:+ " - "
                          +:+ statusText r)))
       ∧ (ok r = true → ∀ data, json_result r = Return data →
            (callApi url options net).2 = Return data)).
Proof.
  rewrite callApi_eq. split; [done|]. split; [done|]. split; [done|]. split.
  - unfold request_of, own_content_type. simpl.
    rewrite lookup_union. destruct (opt_headers options) as [h|]; simpl.
    + rewrite lookup_singleton_eq. by destruct (h !! content_type).
    + by rewrite lookup_empty, lookup_singleton_eq.
  - intros r ->. simpl. split; [|split].
    + unfold ok. rewrite andb_true_iff, !Nat.leb_le. done.
    + by intros ->.
    + by intros -> data ->.
Qed.

(** ** The registry sync CLI *)

Module NovaSyncFacts.
Import NovaSync.

Lemma harmless_app t1 t2 : harmless t1 → harmless t2 → harmless (t1 ++ t2).
Proof.
  unfold harmless, posts, writes, manifest_accesses, errors_printed, exits.
  intros (H1 & H2 & H3 & H4 & H5) (G1 & G2 & G3 & G4 & G5).
  rewrite !omap_app, List.filter_app, H1, H2, H3, H4, H5, G1, G2, G3, G4, G5.
  done.
Qed.

Lemma bind_trace {A B} (c : prog cli_event A) (k : A → prog cli_event B) :
  (bind c k).1 = c.1 ++ match c.2 with Return v => (k v).1 | Throw _ => [] end.
Proof.
  destruct c as [t [v|e]]; simpl; [|by rewrite app_nil_r].
  by destruct (k v).
Qed.

Lemma try_catch_trace {A} (body : prog cli_event A) handler :
  (try_catch body handler).1
  = body.1 ++ match body.2 with Return _ => [] | Throw e => (handler e).1 end.
Proof.
  destruct body as [t [v|e]]; simpl; [by rewrite app_nil_r|].
  by destruct (handler e).
Qed.

Lemma harmless_nil : harmless [].
Proof. by repeat split. Qed.

Lemma harmless_bind {A B} (c : prog cli_event A) (k : A → prog cli_event B) :
  harmless c.1 → (∀ v, harmless (k v).1) → harmless (bind c k).1.
Proof.
  intros Hc Hk. rewrite bind_trace. apply harmless_app; [done|].
  destruct c.2; [apply Hk|apply harmless_nil].
Qed.

Lemma harmless_try_catch {A} (body : prog cli_event A) handler :
  harmless body.1 → (∀ e, harmless (handler e).1) →
  harmless (try_catch body handler).1.
Proof.
  intros Hb Hh. rewrite try_catch_trace. apply harmless_app; [done|].
  destruct body.2; [apply harmless_nil|apply Hh].
Qed.

(** Walks through a program built from the combinators and closes the
    goal when every effect on the way is harmless. *)
Ltac harmless_walk :=
  repeat first
    [ apply harmless_nil
    | apply harmless_bind; [|intros ?]
    | apply harmless_try_catch; [|intros ?]
    | match goal with
      | |- harmless (fst (if ?b then _ else _)) => destruct b
      | |- harmless (fst (match ?x with _ => _ end)) => destruct x
      | |- harmless (fst (emit _)) => by repeat split
      | |- harmless (fst (existsSync _ _)) => unfold existsSync
      | |- harmless (fst (read_json _ _)) => unfold read_json
      | |- harmless (fst (get_or_throw _ _)) => unfold get_or_throw
      end ].


Lemma validate_package_harmless env : harmless (validate_package env).1.
Proof. unfold validate_package. harmless_walk. Qed.

Lemma validateProject_harmless c env : harmless (validateProject c env).1.
Proof.
  unfold validateProject. apply harmless_bind; [apply validate_package_harmless|].
  intros _. unfold validate_config. harmless_walk.
Qed.



Lemma loadObjectsFromJson_harmless_but_manifest env :
  let t := (loadObjectsFromJson env).1 in
  posts t = [] ∧ writes t = [] ∧ errors_printed t = [] ∧ exits t = [].
Proof.
  unfold loadObjectsFromJson, existsSync, read_json, get_or_throw.
  destruct (nova_objects_json env) as [|m|data]; simpl; [done..|].
  destruct (js_get data "objects") as [objs|]; simpl; [|done].
  destruct (negb (truthy objs) || negb (typeof_object objs)); simpl; [done|].
  destruct (js_get data "experiences") as [exps|]; simpl; [|done].
  by destruct (negb (truthy exps) || negb (typeof_object exps)).
Qed.



Lemma run_reports c env now net t e :
  run_try c env now net = (t, Throw e) →
  run c env now net = (t ++ [LogError ("❌ " +:+ message_text e); Exit 1], Return tt).
Proof. intros H. unfold run. rewrite H. done. Qed.

Lemma run_try_stops_at_validation c env now net e :
  (validateProject c env).2 = Throw e →
  run_try c env now net
  = (Log "🎯 Nova Registry Sync" :: (validateProject c env).1, Throw e).
Proof.
  intros H. unfold run_try.
  destruct (validateProject c env) as [tv r]. simpl in H. subst r. done.
Qed.

Lemma run_try_stops_at_manifest c env now net e :
  (validateProject c env).2 = Return tt →
  (loadObjectsFromJson env).2 = Throw e →
  run_try c env now net
  = (Log "🎯 Nova Registry Sync"
       :: (validateProject c env).1 ++ (loadObjectsFromJson env).1, Throw e).
Proof.
  intros Hv Hl. unfold run_try.
  destruct (validateProject c env) as [tv rv]. simpl in Hv. subst rv.
  destruct (loadObjectsFromJson env) as [tl rl]. simpl in Hl. subst rl. done.
Qed.



End NovaSyncFacts.

(** ** Worked instances *)

Lemma C1_witness :
  objects (novaReducer 0 (initialState demo_config)
             (SET_DEFAULTS {[ "welcome-button" := red ]})) = ∅.
Proof.
  refine (proj1 C1_set_defaults_yields_empty_map 0 (initialState demo_config)
            {[ "welcome-button" := red ]} _).
  intros k [v Hk]. apply lookup_singleton_Some in Hk as [<- _]. reflexivity.
Defined.



Lemma C4_witness :
  NovaProvider.loadObject (state_with None ∅ false) "hero" true offline
  = ([], Throw user_required).
Proof.
  refine (proj1 (C4_no_user_no_network (state_with None ∅ false) _) _ _ _).
  reflexivity.
Defined.

Lemma C5_witness :
  fetches (NovaProvider.loadObject signed_in "hero" false offline).1
  = [single_variant_fetch demo_config demo_user "hero"]
  ∧ fetches (NovaProvider.loadObject hero_fetched "hero" false offline).1 = []
  ∧ state_after still_clock hero_fetched
      (NovaProvider.loadObject hero_fetched "hero" false offline).1 = hero_fetched
  ∧ fetches (NovaProvider.loadObject hero_fetched "hero" true offline).1
    = [single_variant_fetch demo_config demo_user "hero"].
Proof.
  split.
  - refine (proj1 (C5_loadObject_fetches_once_or_skips signed_in demo_user
                     "hero" offline _) _ false).
    + reflexivity.
    + intros (o & Ho & _). vm_compute in Ho. discriminate Ho.
  - destruct (proj2 (C5_loadObject_fetches_once_or_skips hero_fetched demo_user
                       "hero" offline eq_refl)) as (_ & H1 & _ & H2 & H3).
    + eexists. split; reflexivity.
    + split; [exact H1|]. split; [apply H2|exact H3].
Defined.

Lemma C6_witness :
  let state := hero_fetched in
  let c := NovaProvider.loadObjects state ["hero"; "banner"] false banner_only in
  let s' := state_after still_clock state c.1 in
  fetches c.1 = [batch_fetch demo_config demo_user ["banner"]]
  ∧ (∃ collected : gmap string json,
       dispatched c.1 = [SET_LOADING true; SET_ERROR None;
                         SET_BULK_OBJECTS collected; SET_LOADING false]
       ∧ collected !! "banner" = Some blue)
  ∧ objects s' !! "banner"
    = Some {| name := None; defaultProps := None; props := blue;
              isLoaded := true; lastFetched := Some 0 |}
  ∧ objects s' !! "hero" = objects state !! "hero".
Proof.
  destruct (C6_loadObjects_filters_and_frames hero_fetched demo_user
              ["hero"; "banner"] banner_only still_clock eq_refl)
    as (_ & _ & Hfetch & Hbulk & _ & Hframe & _).
  destruct (Hbulk (JObj [("banner", JObj [("variant_config", blue)])])
              [("banner", JObj [("variant_config", blue)])])
    as (collected & Hd & _ & _ & Hv & Hs).
  { discriminate. }
  { reflexivity. }
  { reflexivity. }
  { apply not_elem_of_cons. split; [discriminate|apply not_elem_of_nil]. }
  assert (Hbanner : collected !! "banner" = Some blue).
  { apply (Hv "banner" (JObj [("variant_config", blue)])).
    - apply elem_of_cons. by left.
    - apply NoDup_singleton.
    - discriminate. }
  split; [|split; [|split]].
  - apply Hfetch. discriminate.
  - exists collected. split; [exact Hd|exact Hbanner].
  - specialize (Hs "banner"). rewrite Hbanner in Hs. exact Hs.
  - apply Hframe. vm_compute. intros H.
    apply elem_of_cons in H as [H|H]; [discriminate H|by apply elem_of_nil in H].
Defined.

Lemma C7_witness :
  isLoading (state_after still_clock
               (state_with (Some demo_user) ∅ true)
               (NovaProvider.loadObject (state_with (Some demo_user) ∅ true)
                  "hero" false offline).1) = false.
Proof.
  refine (proj1 (proj1 (C7_loadObject_error_slot_and_loading_flag
                  (state_with (Some demo_user) ∅ true) "hero" false offline
                  still_clock) demo_user _ _)); reflexivity.
Defined.

Lemma C8_witness :
  (callApi "https://nova.example/ping" no_options
     (Responded {| status := 404; statusText := "Not Found";
                   text_result := EmptyString; json_result := Return JNull |})).2
  = Throw (ErrorObj PlainError "API error: 404 - Not Found").
Proof.
  destruct (C8_callApi_contract "https://nova.example/ping" no_options
              (Responded {| status := 404; statusText := "Not Found";
                            text_result := EmptyString;
                            json_result := Return JNull |}))
    as (_ & _ & _ & _ & H).
  destruct (H _ eq_refl) as (_ & Hfail & _).
  apply Hfail. reflexivity.
Defined.


(** * Further properties *)

(** ** The reducer *)

Lemma state_eq (s1 s2 : NovaState) :
  config s1 = config s2 → user s1 = user s2 → objects s1 = objects s2 →
  isLoading s1 = isLoading s2 → error s1 = error s2 → s1 = s2.
Proof. destruct s1, s2; simpl; intros; by subst. Qed.



(** X3.  No action other than set-defaults removes or degrades an entry:
    the entry is still there afterwards with the same [name] and
    [defaultProps], and once loaded it stays loaded. *)
Theorem X3_entries_survive (now : Z) (s : NovaState) (a : NovaAction)
    (k : string) (o : NovaObject) :
  is_set_defaults a = false →
  objects s !! k = Some o →
  ∃ o', objects (novaReducer now s a) !! k = Some o'
        ∧ name o' = name o ∧ defaultProps o' = defaultProps o
        ∧ (isLoaded o = true → isLoaded o' = true).
Proof.
  intros Ha Hk. destruct a; try done; try (by exists o).
  - simpl. destruct (decide (k = name0)) as [->|Hne].
    + rewrite lookup_insert_eq, Hk. by eexists.
    + rewrite lookup_insert_ne by done. by exists o.
  - rewrite reducer_bulk_lookup, Hk. destruct (payload !! k); by eexists.
Qed.

(** X4.  Loading registered names keeps the invariant "every cache entry
    carries default properties": if it holds before an action and every
    name the action writes is already in the cache, it holds after. *)
Theorem X4_defaults_kept_for_registered_names
    (now : Z) (s : NovaState) (a : NovaAction) :
  has_defaults s → writes_registered s a → has_defaults (novaReducer now s a).
Proof.
  intros Hinv Hreg k o. destruct a; try apply Hinv.
  - simpl. rewrite set_defaults_lookup.
    destruct (inherited k); [|done].
    destruct (payload !! k); [|done]. intros [= <-]. by eexists.
  - simpl. destruct (decide (k = name0)) as [->|Hne].
    + rewrite lookup_insert_eq. intros [= <-]. simpl.
      destruct Hreg as [old Hold]. rewrite Hold. simpl. by eapply Hinv.
    + rewrite lookup_insert_ne by done. apply Hinv.
  - rewrite reducer_bulk_lookup. destruct (payload !! k) as [v|] eqn:Hp.
    + intros [= <-]. simpl. destruct (Hreg k) as [old Hold]; [by eexists|].
      rewrite Hold. simpl. by eapply Hinv.
    + apply Hinv.
Qed.

(** X5.  The flag, user and configuration actions commute with the actions
    that write the cache: whichever of the two the store processes first,
    the resulting state is the same. *)
Theorem X5_flag_actions_commute_with_cache_actions
    (now now' : Z) (s : NovaState) (f a : NovaAction) :
  touches_cache f = false → touches_cache a = true →
  novaReducer now (novaReducer now' s f) a = novaReducer now' (novaReducer now s a) f.
Proof. intros Hf Ha. destruct f; try done; destruct a; done. Qed.

(** ** The loader *)

(** X6.  A successful [loadObject] marks the name loaded with the fetched
    [variant_config] and the time of the update, leaves every other entry,
    the user and the configuration as they were, and makes the next
    [loadObject] for that name (without [forceReload]) send nothing and
    dispatch nothing. *)
Theorem X6_load_then_reload_is_skipped
    (state : NovaState) (u : NovaUser) (nm : string) (force : bool)
    (net : fetch_result) (data : json) (clock : nat → Z) :
  user state = Some u →
  negb force && NovaProvider.isObjectLoaded state nm = false →
  api_completion net = Return data →
  let s' := state_after clock state (NovaProvider.loadObject state nm force net).1 in
  objects s' !! nm
  = Some (with_fetched (clock 2%nat) (objects state !! nm)
            (js_get_opt data "variant_config"))
  ∧ NovaProvider.isObjectLoaded s' nm = true
  ∧ (∀ k, k ≠ nm → objects s' !! k = objects state !! k)
  ∧ user s' = user state ∧ config s' = config state
  ∧ isLoading s' = false ∧ error s' = None
  ∧ (∀ net', fetches (NovaProvider.loadObject s' nm false net').1 = []
             ∧ dispatched (NovaProvider.loadObject s' nm false net').1 = []).
Proof.
  intros Hu Hb Hd s'. subst s'.
  rewrite (loadObject_fetching state u Hu nm force net Hb), Hd.
  unfold state_after. simpl.
  set (s' := {| config := config state; user := user state;
                objects := <[nm := with_fetched (clock 2%nat) (objects state !! nm)
                                     (js_get_opt data "variant_config")]>
                             (objects state);
                isLoading := false; error := None |}).
  assert (Hl : NovaProvider.isObjectLoaded s' nm = true).
  { unfold NovaProvider.isObjectLoaded. simpl. by rewrite lookup_insert_eq. }
  assert (Hu' : user s' = Some u) by done.
  split; [by simpl; rewrite lookup_insert_eq|]. split; [exact Hl|].
  split; [by intros k Hk; simpl; rewrite lookup_insert_ne|].
  repeat split; try done;
    by rewrite (loadObject_skips s' u Hu' nm Hl).
Qed.

(** X7.  A load that fails never touches the cache.  Whatever makes the
    request of [loadObject], [loadObjects] or [loadAllObjects] fail, the
    object map after the call is the one before it, the failure is thrown
    to the caller, and for the two bulk operations the error slot holds
    [Failed to load objects: <message>] and the loading flag is down. *)
Theorem X7_failed_load_keeps_cache
    (state : NovaState) (net : fetch_result) (e : thrown) (clock : nat → Z) :
  api_completion net = Throw e →
  (∀ nm force,
     objects (state_after clock state
                (NovaProvider.loadObject state nm force net).1) = objects state)
  ∧ (∀ names force,
       let c := NovaProvider.loadObjects state names force net in
       objects (state_after clock state c.1) = objects state
       ∧ (dispatched c.1 ≠ [] →
            c.2 = Throw e
            ∧ error (state_after clock state c.1) = Some (bulk_failure_message e)
            ∧ isLoading (state_after clock state c.1) = false))
  ∧ (∀ force,
       let c := NovaProvider.loadAllObjects state force net in
       objects (state_after clock state c.1) = objects state
       ∧ (dispatched c.1 ≠ [] →
            c.2 = Throw e
            ∧ error (state_after clock state c.1) = Some (bulk_failure_message e)
            ∧ isLoading (state_after clock state c.1) = false)).
Proof.
  intros He.
  assert (Hbulk : ∀ url b,
    NovaProvider.fetch_bulk url b net
    = (bulk_prefix url b
         ++ [Dispatch (SET_ERROR (Some (bulk_failure_message e)));
             Dispatch (SET_LOADING false)], Throw e)).
  { intros. by rewrite fetch_bulk_eq, He. }
  split; [|split].
  - intros nm force. unfold NovaProvider.loadObject.
    destruct (user state) as [u|] eqn:Hu; [|done].
    destruct (negb force && NovaProvider.isObjectLoaded state nm) eqn:Hb; [done|].
    rewrite callApi_eq, He. done.
  - intros names force c. subst c. unfold NovaProvider.loadObjects.
    destruct (user state) as [u|]; [|done].
    destruct (length _ =? 0)%nat; [done|].
    rewrite Hbulk. done.
  - intros force c. subst c. unfold NovaProvider.loadAllObjects.
    destruct (negb force && _); [done|].
    destruct (user state) as [u|]; [|done].
    rewrite Hbulk. done.
Qed.

(** X8.  A response without a usable [variant_config] still marks the
    object loaded: when the fetched [variant_config] is missing or falsy,
    the entry is flagged loaded (so it is not fetched again without
    [forceReload]), [readNovaObject] returns that falsy value, and
    [getNovaObject] keeps answering with the default properties the entry
    had, or [undefined] when it had none. *)
Theorem X8_load_without_variant_config
    (state : NovaState) (u : NovaUser) (nm : string) (force : bool)
    (net : fetch_result) (data : json) (clock : nat → Z) :
  user state = Some u →
  negb force && NovaProvider.isObjectLoaded state nm = false →
  api_completion net = Return data →
  truthy (js_get_opt data "variant_config") = false →
  let s' := state_after clock state (NovaProvider.loadObject state nm force net).1 in
  let fallback := default JUndefined (objects state !! nm ≫= defaultProps) in
  NovaProvider.isObjectLoaded s' nm = true
  ∧ NovaProvider.readNovaObject s' nm
    = ([], Return (js_get_opt data "variant_config"))
  ∧ NovaProviderSync.getNovaObject s' nm = ([], Return fallback)
  ∧ (∀ readOnly net',
       NovaProvider.getNovaObject s' nm readOnly net' = ([], Return fallback)).
Proof.
  intros Hu Hb Hd Hf s' fallback. subst s' fallback.
  rewrite (loadObject_fetching state u Hu nm force net Hb), Hd.
  unfold state_after, NovaProvider.isObjectLoaded, NovaProvider.readNovaObject,
    NovaProviderSync.getNovaObject, NovaProvider.getNovaObject. simpl.
  rewrite !lookup_insert_eq. simpl. unfold js_or. rewrite Hf.
  by destruct (objects state !! nm).
Qed.




(** X10.  [forceReload] bypasses the filter of [loadObjects] but not its
    empty-list test: with a user set, a forced call asks the batch endpoint
    for the given names as they are, loaded ones and repetitions included,
    and a call with no names sends and dispatches nothing even when
    forced. *)
Theorem X10_loadObjects_forced
    (state : NovaState) (u : NovaUser) (names : list string) (net : fetch_result) :
  user state = Some u →
  (names ≠ [] →
     fetches (NovaProvider.loadObjects state names true net).1
     = [batch_request state u names])
  ∧ (∀ force, NovaProvider.loadObjects state [] force net
              = ([ConsoleLog "All requested objects already loaded, skipping..."],
                 Return ∅)).
Proof.
  intros Hu. unfold NovaProvider.loadObjects. rewrite Hu. split.
  - intros Hne. simpl. destruct names as [|n rest]; [done|]. simpl.
    rewrite fetch_bulk_eq. destruct (api_completion net) as [data|e]; [|done].
    by destruct (Object_entries data).
  - by intros [].
Qed.

(** ** The other operations of the provider *)

Lemma truthy_string s : truthy (JStr s) = false ↔ s = EmptyString.
Proof.
  simpl. rewrite negb_false_iff. split.
  - intros H. by apply String.eqb_eq in H.
  - intros ->. reflexivity.
Qed.

(** X11.  [trackEvent] is silent unless it can identify the sender: when
    the organisation id or the app id is empty, or no user is set, or the
    user has no (or an empty) backend user id, it returns at once without
    any effect.  Otherwise it sends exactly one request, to the
    track-event endpoint, carrying the backend user id; it never
    dispatches, so the state is never changed, and a failure of the
    request is thrown to the caller as it is. *)
Theorem X11_trackEvent_gate
    (state : NovaState) (eventName : string) (eventData : json)
    (now_iso : string) (net : fetch_result) :
  let c := NovaProviderOps.trackEvent state eventName eventData now_iso net in
  (NovaProviderOps.tracking_disabled state = true
   ↔ organisationId (config state) = EmptyString
     ∨ appId (config state) = EmptyString
     ∨ user state ≫= novaUserId = None
     ∨ user state ≫= novaUserId = Some EmptyString)
  ∧ (NovaProviderOps.tracking_disabled state = true → c = ([], Return tt))
  ∧ (NovaProviderOps.tracking_disabled state = false →
       ∃ id, user state ≫= novaUserId = Some id ∧ id ≠ EmptyString
             ∧ fetches c.1 = [track_event_request state id eventName eventData now_iso]
             ∧ dispatched c.1 = []
             ∧ c.2 = match api_completion net with
                     | Return _ => Return tt
                     | Throw e => Throw e
                     end).
Proof.
  intros c. subst c. unfold NovaProviderOps.trackEvent.
  assert (Hiff : NovaProviderOps.tracking_disabled state = true
                 ↔ organisationId (config state) = EmptyString
                   ∨ appId (config state) = EmptyString
                   ∨ user state ≫= novaUserId = None
                   ∨ user state ≫= novaUserId = Some EmptyString).
  { unfold NovaProviderOps.tracking_disabled.
    rewrite !orb_true_iff, !negb_true_iff, !truthy_string.
    destruct (user state ≫= novaUserId) as [id|]; simpl.
    - rewrite negb_false_iff. split.
      + intros [[H|H]|H]; [tauto..|]. apply String.eqb_eq in H. subst. tauto.
      + intros [H|[H|[H|H]]]; [tauto..|done|]. injection H as ->. by right.
    - split; [tauto|]. intros _. by right. }
  split; [exact Hiff|]. split.
  - by intros ->.
  - intros Hen. rewrite Hen.
    destruct (user state ≫= novaUserId) as [id|] eqn:Hid.
    + exists id. split; [done|]. split.
      { intros ->. assert (NovaProviderOps.tracking_disabled state = true)
          by (apply Hiff; tauto). congruence. }
      rewrite callApi_eq. by destruct (api_completion net).
    + assert (NovaProviderOps.tracking_disabled state = true)
        by (apply Hiff; tauto). congruence.
Qed.

(** X12.  The registering [setUser] stores the user only after the
    backend answered.  It sends one create-user request; if that fails the
    error is thrown and nothing is dispatched, so the user stays as it was
    and, unlike in the load operations, neither the error slot nor the
    loading flag is touched.  If it succeeds (the returned id being a
    string or absent), the stored user keeps the caller's id and profile
    but takes its backend id from the response, whatever backend id the
    caller passed in; cache, configuration and flags stay as they were, and
    a [loadObject] on the new state gets to its request.  The revision
    that calls [fetch] directly has no such step: its [setUser] sends
    nothing and stores the user exactly as given. *)
Theorem X12_setUser_registers_first
    (state : NovaState) (u : NovaUser) (net : fetch_result) (clock : nat → Z) :
  let c := NovaProviderOps.setUser state u net in
  let s' := state_after clock state c.1 in
  fetches c.1 = [create_user_request state u]
  ∧ (∀ e, api_completion net = Throw e →
          c.2 = Throw e ∧ dispatched c.1 = [] ∧ s' = state)
  ∧ (∀ data, api_completion net = Return data →
       string_or_absent (js_get_opt data "nova_user_id") →
       let stored := {| userId := userId u; userProfile := userProfile u;
                        novaUserId := declared_string
                                        (js_get_opt data "nova_user_id") |} in
       c.2 = Return tt
       ∧ user s' = Some stored
       ∧ objects s' = objects state ∧ config s' = config state
       ∧ isLoading s' = isLoading state ∧ error s' = error state
       ∧ (∀ nm net', fetches (NovaProvider.loadObject s' nm true net').1
                     = [variant_request s' stored nm]))
  ∧ (fetches (NovaProviderFetch.setUser u).1 = []
     ∧ user (state_after clock state (NovaProviderFetch.setUser u).1) = Some u).
Proof.
  intros c s'. subst s' c. unfold NovaProviderOps.setUser.
  rewrite callApi_eq. split; [|split; [|split; [|done]]].
  - by destruct (api_completion net).
  - intros e ->. by destruct state.
  - intros data -> _. unfold state_after. simpl.
    set (stored := {| userId := userId u; userProfile := userProfile u;
                      novaUserId := declared_string
                                      (js_get_opt data "nova_user_id") |}).
    repeat split; try done. intros nm net'.
    rewrite (loadObject_fetching _ stored) by done.
    by destruct (api_completion net').
Qed.

(** Closes the goal of X13 in a case where the [try] block throws. *)
Ltac defaults_failed :=
  do 5 (split; [done|]);
  split; [|intros f Hf; discriminate Hf];
  intros e He; inversion He; subst;
  split; [done|]; split; [done|];
  eexists; rewrite !elem_of_cons; right; right; left; reflexivity.

(** X13.  [loadDefaults] never throws and always ends with the loading
    flag down, sending one request for [/nova-objects.json].  When the
    document cannot be had (network failure, status outside 200-299,
    unparsable body, [null] document), the failure is logged, the error
    slot holds [Failed to load defaults: <message>] and the cache is as it
    was.  When it can, an error recorded earlier stays in the slot and
    the cache, whatever it held, is replaced: it is empty when the
    document lists no name of a member of [Object.prototype]; in general
    (the key [__proto__] apart) it holds one entry, not loaded and with
    the listed default properties, for each listed name that is such a
    member, and nothing else. *)
Theorem X13_loadDefaults_outcomes
    (state : NovaState) (net : fetch_result) (clock : nat → Z) :
  let c := NovaProviderOps.loadDefaults net in
  let s' := state_after clock state c.1 in
  c.2 = Return tt
  ∧ fetches c.1 = [("/nova-objects.json", bare_request)]
  ∧ isLoading s' = false ∧ user s' = user state ∧ config s' = config state
  ∧ (∀ e, defaults_completion net = Throw e →
          objects s' = objects state
          ∧ error s' = Some (defaults_failure_message e)
          ∧ ∃ m, ConsoleError m ∈ c.1)
  ∧ (∀ features, defaults_completion net = Return features →
          error s' = error state
          ∧ ((∀ k, is_Some (defaults_payload features !! k) → inherited k = false) →
               objects s' = ∅)
          ∧ (defaults_payload features !! "__proto__" = None →
               ∀ k, objects s' !! k
                    = if inherited k
                      then defaults_only k <$> defaults_payload features !! k
                      else None)).
Proof.
  intros c s'. subst s' c.
  unfold NovaProviderOps.loadDefaults, defaults_completion, raw_fetch, await_json,
    js_get_throw, state_after.
  destruct net as [e0|r]; simpl; [by defaults_failed|].
  destruct (ok r); simpl; [|by defaults_failed].
  destruct (json_result r) as [data|e0]; simpl; [|by defaults_failed].
  destruct (js_get data "features") as [features|]; simpl; [|by defaults_failed].
  do 5 (split; [done|]). split; [intros e He; discriminate He|].
  intros f [= <-]. split; [done|]. split.
  - apply set_defaults_empty.
  - intros _ k. apply set_defaults_lookup.
Qed.

Lemma loadDefaults_eq net :
  NovaProviderOps.loadDefaults net =
    match defaults_completion net with
    | Return features =>
        ([Dispatch (SET_LOADING true); Fetch "/nova-objects.json" bare_request;
          Dispatch (SET_DEFAULTS (defaults_payload features));
          Dispatch (SET_LOADING false)], Return tt)
    | Throw e =>
        ([Dispatch (SET_LOADING true); Fetch "/nova-objects.json" bare_request;
          ConsoleError ("Failed to load defaults: " +:+ shown e);
          Dispatch (SET_ERROR (Some (defaults_failure_message e)));
          Dispatch (SET_LOADING false)], Return tt)
    end.
Proof.
  unfold NovaProviderOps.loadDefaults, defaults_completion, raw_fetch, await_json,
    js_get_throw.
  destruct net as [e0|r]; simpl; [done|].
  destruct (ok r); simpl; [|done].
  destruct (json_result r) as [data|e0]; simpl; [|done].
  by destruct (js_get data "features").
Qed.

(** X14.  One run of [initialize] of [useNovaInit], whose two operations
    see the state of the same render.  On a non-empty cache it only asks
    for the defaults, and if that succeeds with a document that lists no
    name of a member of [Object.prototype], the store's cache ends up
    empty: nothing is loaded in its place.  On an empty cache with no user
    set it always ends in the precondition error, after the defaults
    request.  On an empty cache with a user set and both requests
    answered, the defaults document listing no name of a member of
    [Object.prototype] and the backend's document having no key
    [__proto__], the cache ends up holding exactly the names the backend
    returned, each marked loaded and none carrying default properties. *)
Theorem X14_initialize_outcomes
    (state : NovaState) (net_defaults net_all : fetch_result) (clock : nat → Z) :
  let c := NovaProviderOps.initialize state net_defaults net_all in
  let s' := state_after clock state c.1 in
  (objects state ≠ ∅ →
     c.2 = Return tt
     ∧ fetches c.1 = [("/nova-objects.json", bare_request)]
     ∧ (∀ features, defaults_completion net_defaults = Return features →
          (∀ k, is_Some (defaults_payload features !! k) → inherited k = false) →
          objects s' = ∅))
  ∧ (objects state = ∅ → user state = None →
       c.2 = Throw user_required
       ∧ fetches c.1 = [("/nova-objects.json", bare_request)])
  ∧ (∀ u features data entries,
       objects state = ∅ → user state = Some u →
       defaults_completion net_defaults = Return features →
       (∀ k, is_Some (defaults_payload features !! k) → inherited k = false) →
       api_completion net_all = Return data →
       Object_entries data = Some entries →
       "__proto__" ∉ entries.*1 →
       c.2 = Return tt
       ∧ fetches c.1 = [("/nova-objects.json", bare_request); all_request state u]
       ∧ (∀ k, objects s' !! k
               = with_fetched (clock 5%nat) None
                   <$> foldl collect_step (∅ : gmap string json) entries !! k)
       ∧ (∀ k o, objects s' !! k = Some o →
            isLoaded o = true ∧ defaultProps o = None ∧ name o = None)).
Proof.
  intros c s'. subst s' c. unfold NovaProviderOps.initialize.
  rewrite loadDefaults_eq. split; [|split].
  - intros Hne. unfold NovaProvider.loadAllObjects.
    assert ((0 <? size (objects state))%nat = true) as ->.
    { apply Nat.ltb_lt.
      destruct (decide (size (objects state) = 0%nat)) as [Hz|Hz]; [|lia].
      by apply map_size_empty_iff in Hz. }
    destruct (defaults_completion net_defaults) as [f|e]; simpl.
    + repeat split; try done. intros f' [= <-] Hown. unfold state_after. simpl.
      by apply set_defaults_empty.
    + repeat split; try done.
  - intros He Hu. unfold NovaProvider.loadAllObjects.
    rewrite He, map_size_empty, Hu. simpl.
    by destruct (defaults_completion net_defaults).
  - intros u features data entries He Hu Hd Hown Ha Hen _.
    unfold NovaProvider.loadAllObjects.
    rewrite He, map_size_empty, Hu, Hd, fetch_bulk_eq, Ha, Hen. simpl.
    split; [done|]. split; [done|].
    assert (Hlook : ∀ k,
      foldl (set_bulk_step (clock 5%nat))
        (foldl set_defaults_step ∅ (map_to_list (defaults_payload features)))
        (map_to_list (foldl collect_step (∅ : gmap string json) entries)) !! k
      = with_fetched (clock 5%nat) None
          <$> foldl collect_step (∅ : gmap string json) entries !! k).
    { intros k. rewrite set_bulk_lookup, set_defaults_empty, lookup_empty by done.
      by destruct (foldl collect_step ∅ entries !! k). }
    split.
    + intros k. unfold state_after. simpl. apply Hlook.
    + intros k o. unfold state_after. simpl. rewrite Hlook.
      destruct (foldl collect_step ∅ entries !! k); [|done].
      by intros [= <-].
Qed.

Lemma post_init_eq b : NovaProviderFetch.post_init b = request_of (post b).
Proof.
  unfold NovaProviderFetch.post_init, request_of, post. simpl.
  by rewrite (left_id_L ∅ (∪)).
Qed.

(** Case analysis on what the network does, for both revisions at once. *)
Ltac both_revisions net :=
  unfold NovaProvider.fetch_bulk, NovaProviderFetch.fetch_bulk, callApi, raw_fetch,
    await_json, entries_or_throw, state_after;
  rewrite ?post_init_eq;
  destruct net as [e0|r0]; simpl; [done|];
  destruct (ok r0); simpl; [|done];
  destruct (json_result r0) as [data0|e0]; simpl; [|done];
  try (destruct (Object_entries data0); simpl); done.

(** X15.  The two revisions of the load operations (through [callApi],
    and calling [fetch] directly) are interchangeable for the store: for
    the same state, arguments and behaviour of the network they send the
    same requests and leave the same cache and the same loading flag, and
    whenever the request succeeds they dispatch the same actions.  They
    differ in what they return and in the text recorded for a response
    outside 200-299, which names the status code in one and not in the
    other. *)
Theorem X15_revisions_agree
    (state : NovaState) (net : fetch_result) (clock : nat → Z) :
  (∀ nm force,
     let a := NovaProvider.loadObject state nm force net in
     let b := NovaProviderFetch.loadObject state nm force net in
     fetches b.1 = fetches a.1
     ∧ objects (state_after clock state b.1) = objects (state_after clock state a.1)
     ∧ isLoading (state_after clock state b.1) = isLoading (state_after clock state a.1)
     ∧ (∀ data, api_completion net = Return data → dispatched b.1 = dispatched a.1))
  ∧ (∀ names force,
       let a := NovaProvider.loadObjects state names force net in
       let b := NovaProviderFetch.loadObjects state names force net in
       fetches b.1 = fetches a.1
       ∧ objects (state_after clock state b.1) = objects (state_after clock state a.1)
       ∧ isLoading (state_after clock state b.1)
         = isLoading (state_after clock state a.1)
       ∧ (∀ data, api_completion net = Return data → dispatched b.1 = dispatched a.1))
  ∧ (∀ force,
       let a := NovaProvider.loadAllObjects state force net in
       let b := NovaProviderFetch.loadAllObjects state force net in
       fetches b.1 = fetches a.1
       ∧ objects (state_after clock state b.1) = objects (state_after clock state a.1)
       ∧ isLoading (state_after clock state b.1)
         = isLoading (state_after clock state a.1)
       ∧ (∀ data, api_completion net = Return data → dispatched b.1 = dispatched a.1))
  ∧ (∀ u nm force r,
       user state = Some u →
       negb force && NovaProvider.isObjectLoaded state nm = false →
       net = Responded r → ok r = false →
       error (state_after clock state (NovaProvider.loadObject state nm force net).1)
       = Some (load_failure_message nm
                 (ErrorObj PlainError
                    ("API error: " +:+ pretty (status r) +:+ " - " +:+ statusText r)))
       ∧ error (state_after clock state
                  (NovaProviderFetch.loadObject state nm force net).1)
         = Some (load_failure_message nm
                   (ErrorObj PlainError
                      ("Failed to load object: " +:+ statusText r)))).
Proof.
  split; [|split; [|split]].
  - intros nm force a b. subst a b.
    unfold NovaProvider.loadObject, NovaProviderFetch.loadObject.
    destruct (user state) as [u|]; [|done].
    destruct (negb force && _); [done|].
    unfold api_completion. repeat split; try intros data; both_revisions net.
  - intros names force a b. subst a b.
    unfold NovaProvider.loadObjects, NovaProviderFetch.loadObjects.
    destruct (user state) as [u|]; [|done].
    destruct (length _ =? 0)%nat; [done|].
    unfold api_completion. repeat split; try intros data; both_revisions net.
  - intros force a b. subst a b.
    unfold NovaProvider.loadAllObjects, NovaProviderFetch.loadAllObjects.
    destruct (negb force && _); [done|].
    destruct (user state) as [u|]; [|done].
    unfold api_completion. repeat split; try intros data; both_revisions net.
  - intros u nm force r Hu Hb -> Hok.
    unfold NovaProvider.loadObject, NovaProviderFetch.loadObject.
    rewrite Hu, Hb. unfold callApi, raw_fetch, state_after. simpl.
    rewrite Hok. done.
Qed.

(** ** The registry sync CLI, beyond its failures *)

Module NovaSyncMore.
Import NovaSync NovaSyncFacts NovaSyncScript NovaSyncLayers.

Lemma assign_layer c l :
  assign c (JObj l)
  = {| orgId := default (orgId c) (assoc "orgId" l);
       appId := default (appId c) (assoc "appId" l);
       apiKey := default (apiKey c) (assoc "apiKey" l);
       apiEndpoint := default (apiEndpoint c) (assoc "apiEndpoint" l) |}.
Proof. done. Qed.

Lemma assign_nothing c : assign c (JObj []) = c.
Proof. by destruct c. Qed.

(** X16.  [loadConfig] never fails and resolves each of the four settings
    through three layers, the later one winning: the environment variable
    (for the endpoint, [https://api.nova.com] when the variable is unset or
    empty), then the field of [.novarc], then the field of the [nova] block
    of [package.json].  A file that is missing, is not valid JSON or does
    not hold an object is skipped. *)
Theorem X16_loadConfig_layers (env : Environment) :
  (loadConfig env).2
  = Return {| orgId := layered env "orgId" (env_var (NOVA_ORG_ID env));
              appId := layered env "appId" (env_var (NOVA_APP_ID env));
              apiKey := layered env "apiKey" (env_var (NOVA_API_KEY env));
              apiEndpoint :=
                layered env "apiEndpoint"
                  (js_or (env_var (NOVA_API_ENDPOINT env))
                     (JStr "https://api.nova.com")) |}.
Proof.
  unfold loadConfig, layered, rc_layer, nova_layer, existsSync, read_json,
    get_or_throw.
  destruct (novarc env) as [|m|rc]; simpl;
    [| |destruct rc; simpl];
    (destruct (package_json env) as [|m'|pj]; simpl; [done|done|]);
    (destruct (js_get pj "nova") as [nova|]; simpl; [|done]);
    destruct nova; simpl; try done;
    match goal with |- context [if ?x then _ else _] => destruct x end; done.
Qed.
Lemma js_get_present v k :
  v ≠ JUndefined → v ≠ JNull → js_get v k = Some (js_get_opt v k).
Proof. intros H1 H2. unfold js_get_opt. by destruct v. Qed.

Lemma validate_package_parsed env pj :
  package_json env = Parsed pj →
  (validate_package env).2
  = if lists_sdk pj then Return tt
    else Throw (plain (match pj with
                       | JUndefined | JNull => "Invalid package.json file"
                       | _ => sdk_missing_message
                       end)).
Proof.
  intros Hp. unfold validate_package, existsSync, read_json, get_or_throw, lists_sdk.
  rewrite Hp. simpl.
  assert (pj = JUndefined ∨ pj = JNull ∨ (pj ≠ JUndefined ∧ pj ≠ JNull))
    as [->|[->|[H1 H2]]] by (destruct pj; auto).
  { vm_compute. reflexivity. }
  { vm_compute. reflexivity. }
  rewrite (js_get_present pj "dependencies" H1 H2). simpl.
  destruct (truthy (js_get_opt (js_get_opt pj "dependencies") "nova-react-sdk"))
    eqn:Hd; simpl; rewrite ?Hd; simpl; [done|].
  rewrite (js_get_present pj "devDependencies" H1 H2). simpl.
  destruct (truthy (js_get_opt (js_get_opt pj "devDependencies") "nova-react-sdk"))
    eqn:Hv; simpl; rewrite ?Hv; simpl; [done|].
  by destruct pj.
Qed.

(** X17.  The [package.json] checks of [validateProject] pass exactly when
    the file parses and lists [nova-react-sdk] with a truthy version in
    [dependencies] or in [devDependencies].  Otherwise the error is
    [No package.json found ...] for a missing file, the install hint for a
    parsed file that does not list the SDK, and [Invalid package.json file]
    for a [null] document or an unparsable file, except that a parser
    message that happens to contain [nova-react-sdk] is passed on as it
    is. *)
Theorem X17_validate_package_outcomes (env : Environment) :
  ((validate_package env).2 = Return tt
   ↔ ∃ pj, package_json env = Parsed pj ∧ lists_sdk pj = true)
  ∧ (package_json env = Absent →
       (validate_package env).2
       = Throw (plain "No package.json found. Run this command from your project root."))
  ∧ (∀ pj, package_json env = Parsed pj → lists_sdk pj = false →
       (validate_package env).2
       = Throw (plain (match pj with
                       | JUndefined | JNull => "Invalid package.json file"
                       | _ => sdk_missing_message
                       end)))
  ∧ (∀ m, package_json env = Unparsable m →
       (validate_package env).2
       = Throw (if includes "nova-react-sdk" m then ErrorObj SyntaxError m
                else plain "Invalid package.json file")).
Proof.
  assert (Habs : package_json env = Absent →
                 (validate_package env).2
                 = Throw (plain "No package.json found. Run this command from your project root.")).
  { intros Hp. unfold validate_package, existsSync. by rewrite Hp. }
  assert (Hun : ∀ m, package_json env = Unparsable m →
                (validate_package env).2
                = Throw (if includes "nova-react-sdk" m then ErrorObj SyntaxError m
                         else plain "Invalid package.json file")).
  { intros m Hp. unfold validate_package, existsSync, read_json. rewrite Hp. simpl.
    by destruct (includes "nova-react-sdk" m). }
  split; [|split; [exact Habs|split; [|exact Hun]]].
  - split.
    + intros Hr. destruct (package_json env) as [|m|pj] eqn:Hp.
      * rewrite Habs in Hr by done. discriminate Hr.
      * rewrite (Hun m) in Hr by done. by destruct (includes _ m).
      * exists pj. split; [done|].
        rewrite (validate_package_parsed env pj Hp) in Hr.
        by destruct (lists_sdk pj).
    + intros (pj & Hp & Hl). by rewrite (validate_package_parsed env pj Hp), Hl.
  - intros pj Hp Hl. by rewrite (validate_package_parsed env pj Hp), Hl.
Qed.
Lemma getPackageVersion_eq env :
  getPackageVersion env = ([Read package_path], Return (package_version env)).
Proof.
  unfold getPackageVersion, package_version, read_json, get_or_throw.
  destruct (package_json env) as [|m|pj]; simpl; [done..|].
  by destruct (js_get pj "version").
Qed.

Lemma saveRegistryFile_eq c env now_iso objs :
  saveRegistryFile c env now_iso objs
  = ([Read package_path;
      WriteFile registry_path (registry_document c (package_version env) now_iso objs);
      Log ("📄 Registry saved to " +:+ dq +:+ registry_path +:+ dq)],
     Return (registry_document c (package_version env) now_iso objs)).
Proof. unfold saveRegistryFile. by rewrite getPackageVersion_eq. Qed.

(** How [sync] ends once the request is out. *)
Lemma sync_eq c objs exps net :
  sync c objs exps net
  = match net with
    | Rejected e =>
        ([Log "🚀 Syncing to Nova backend..."; sync_post c objs exps], Throw e)
    | Responded r =>
        if ok r then
          match json_result r with
          | Return result =>
              ([Log "🚀 Syncing to Nova backend..."; sync_post c objs exps;
                Log "✅ Sync successful!"], Return result)
          | Throw e =>
              ([Log "🚀 Syncing to Nova backend..."; sync_post c objs exps], Throw e)
          end
        else ([Log "🚀 Syncing to Nova backend..."; sync_post c objs exps],
              Throw (plain ("Sync failed: " +:+ text_result r)))
    end.
Proof.
  unfold sync. destruct net as [e|r]; simpl; [done|].
  destruct (ok r); simpl; [|done]. by destruct (json_result r).
Qed.

Lemma loadObjectsFromJson_ok env data objs exps :
  nova_objects_json env = Parsed data →
  js_get data "objects" = Some objs → section_ok objs = true →
  js_get data "experiences" = Some exps → section_ok exps = true →
  loadObjectsFromJson env = (manifest_read objs, Return (objs, exps)).
Proof.
  intros Hd Ho Hso He Hse.
  unfold loadObjectsFromJson, existsSync, read_json, get_or_throw.
  rewrite Hd. simpl. rewrite Ho. simpl.
  unfold section_ok in *. rewrite <- negb_andb, Hso. simpl.
  rewrite He. simpl. by rewrite <- negb_andb, Hse.
Qed.

Lemma run_try_loaded c env now_iso net tl objs exps :
  (validateProject c env).2 = Return tt →
  loadObjectsFromJson env = (tl, Return (objs, exps)) →
  run_try c env now_iso net
  = if (keys_length objs =? 0)%nat then
      (Log "🎯 Nova Registry Sync" :: (validateProject c env).1 ++ tl
         ++ [Log "⚠️  No objects found in nova-objects.json"], Return tt)
    else
      (Log "🎯 Nova Registry Sync" :: (validateProject c env).1 ++ tl
         ++ (saveRegistryFile c env now_iso objs).1 ++ (sync c objs exps net).1
         ++ match (sync c objs exps net).2 with
            | Return _ => [Log "🎉 Complete!"]
            | Throw _ => []
            end,
       match (sync c objs exps net).2 with
       | Return _ => Return tt
       | Throw e => Throw e
       end).
Proof.
  intros Hv Hl. unfold run_try. rewrite Hl.
  destruct (validateProject c env) as [tv rv]. simpl in Hv. subst rv. simpl.
  destruct (keys_length objs =? 0)%nat; [done|].
  rewrite saveRegistryFile_eq. simpl.
  destruct (sync c objs exps net) as [ts [result|e]]; simpl.
  - done.
  - by rewrite app_nil_r.
Qed.
Lemma after_validation c env m rest :
  let t := Log m :: (validateProject c env).1 ++ rest in
  posts t = posts rest ∧ writes t = writes rest
  ∧ errors_printed t = errors_printed rest ∧ exits t = exits rest.
Proof.
  destruct (validateProject_harmless c env) as (V1 & V2 & _ & V4 & V5).
  unfold posts, writes, errors_printed, exits in *. simpl.
  rewrite !omap_app, V1, V2, V4, V5. done.
Qed.

Lemma run_eq c env now_iso net :
  run c env now_iso net
  = match (run_try c env now_iso net).2 with
    | Return _ => ((run_try c env now_iso net).1, Return tt)
    | Throw e =>
        ((run_try c env now_iso net).1
           ++ [LogError ("❌ " +:+ message_text e); Exit 1], Return tt)
    end.
Proof.
  unfold run. by destruct (run_try c env now_iso net) as [t [[]|e]].
Qed.

(** X18.  The complete run.  When the API key and the endpoint of the
    configuration are strings, the project validation passes, the
    manifest parses with an [objects] and an [experiences] section that
    are objects, [objects] is not empty and the backend accepts the
    request, the CLI reads the manifest, writes [nova-registry.json]
    (metadata with org id, app id, package version and object count; the
    manifest's objects; an empty error list), then posts organisation id,
    app id and the manifest's objects and experiences to the sync path
    under the endpoint, with the API key as bearer token, in this order,
    prints no error and ends with status 0. *)
Theorem X18_complete_run
    (c : Config) (env : Environment) (now_iso : string) (r : Response)
    (data objs exps result : json) (key endpoint : string) :
  apiKey c = JStr key → apiEndpoint c = JStr endpoint →
  (validateProject c env).2 = Return tt →
  nova_objects_json env = Parsed data →
  js_get data "objects" = Some objs → section_ok objs = true →
  js_get data "experiences" = Some exps → section_ok exps = true →
  keys_length objs ≠ 0%nat →
  ok r = true → json_result r = Return result →
  let t := (run c env now_iso (Responded r)).1 in
  t = Log "🎯 Nova Registry Sync" :: (validateProject c env).1
        ++ manifest_read objs
        ++ [ Read package_path;
             WriteFile registry_path
               (registry_document c (package_version env) now_iso objs);
             Log ("📄 Registry saved to " +:+ dq +:+ registry_path +:+ dq);
             Log "🚀 Syncing to Nova backend...";
             Post (endpoint +:+ "/api/v1/feature-flags/sync-nova-objects/")
               [ ("Content-Type", "application/json");
                 ("Authorization", "Bearer " +:+ key) ]
               (JObj [ ("organisation_id", orgId c);
                       ("app_id", appId c);
                       ("objects", objs);
                       ("experiences", exps) ]);
             Log "✅ Sync successful!";
             Log "🎉 Complete!" ]
  ∧ exit_status t = 0%nat ∧ errors_printed t = []
  ∧ writes t = [registry_path]
  ∧ posts t = [endpoint +:+ "/api/v1/feature-flags/sync-nova-objects/"].
Proof.
  intros Hkey Hend Hv Hd Ho Hso He Hse Hn Hok Hj t. subst t.
  assert (Hpost : sync_post c objs exps
                  = Post (endpoint +:+ "/api/v1/feature-flags/sync-nova-objects/")
                      [ ("Content-Type", "application/json");
                        ("Authorization", "Bearer " +:+ key) ]
                      (JObj [ ("organisation_id", orgId c);
                              ("app_id", appId c);
                              ("objects", objs);
                              ("experiences", exps) ])).
  { unfold sync_post, sync_url. by rewrite Hkey, Hend. }
  rewrite <- Hpost.
  assert (Hurl : endpoint +:+ "/api/v1/feature-flags/sync-nova-objects/" = sync_url c).
  { unfold sync_url. by rewrite Hend. }
  rewrite Hurl. clear Hpost Hurl.
  rewrite run_eq,
    (run_try_loaded c env now_iso _ _ objs exps Hv
       (loadObjectsFromJson_ok env data objs exps Hd Ho Hso He Hse)).
  apply Nat.eqb_neq in Hn. rewrite Hn, saveRegistryFile_eq, sync_eq, Hok, Hj. simpl.
  split; [done|].
  destruct (after_validation c env "🎯 Nova Registry Sync"
              (manifest_read objs
                 ++ [ Read package_path;
                      WriteFile registry_path
                        (registry_document c (package_version env) now_iso objs);
                      Log ("📄 Registry saved to " +:+ dq +:+ registry_path +:+ dq);
                      Log "🚀 Syncing to Nova backend...";
                      sync_post c objs exps;
                      Log "✅ Sync successful!";
                      Log "🎉 Complete!" ])) as (F1 & F2 & F3 & F4).
  unfold exit_status. simpl in *. rewrite F1, F2, F3, F4. done.
Qed.

(** X19.  A manifest whose [objects] section is empty is not an error:
    with the validation passed and both sections present, the CLI prints
    the warning and stops there, without writing the registry file,
    without any request and with status 0. *)
Theorem X19_empty_manifest_stops_quietly
    (c : Config) (env : Environment) (now_iso : string) (net : fetch_result)
    (data objs exps : json) :
  (validateProject c env).2 = Return tt →
  nova_objects_json env = Parsed data →
  js_get data "objects" = Some objs → section_ok objs = true →
  js_get data "experiences" = Some exps → section_ok exps = true →
  keys_length objs = 0%nat →
  let t := (run c env now_iso net).1 in
  t = Log "🎯 Nova Registry Sync" :: (validateProject c env).1
        ++ manifest_read objs
        ++ [Log "⚠️  No objects found in nova-objects.json"]
  ∧ exit_status t = 0%nat ∧ errors_printed t = []
  ∧ writes t = [] ∧ posts t = [].
Proof.
  intros Hv Hd Ho Hso He Hse Hn t. subst t.
  rewrite run_eq,
    (run_try_loaded c env now_iso _ _ objs exps Hv
       (loadObjectsFromJson_ok env data objs exps Hd Ho Hso He Hse)).
  rewrite Hn. simpl. split; [done|].
  destruct (after_validation c env "🎯 Nova Registry Sync"
              (manifest_read objs
                 ++ [Log "⚠️  No objects found in nova-objects.json"]))
    as (F1 & F2 & F3 & F4).
  unfold exit_status. simpl in *. rewrite F1, F2, F3, F4. done.
Qed.

(** X20.  The registry file is written before the backend is asked, so a
    rejected sync leaves it behind: under the conditions of the complete
    run, when the request is rejected, answered outside 200-299, or
    answered with an unparsable body, the CLI has already written
    [nova-registry.json] and posted once; it prints one error (for a
    status outside 200-299, [Sync failed:] followed by the response text)
    and ends with status 1. *)
Theorem X20_failed_sync_leaves_registry
    (c : Config) (env : Environment) (now_iso : string) (net : fetch_result)
    (data objs exps : json) (e : thrown) :
  (validateProject c env).2 = Return tt →
  nova_objects_json env = Parsed data →
  js_get data "objects" = Some objs → section_ok objs = true →
  js_get data "experiences" = Some exps → section_ok exps = true →
  keys_length objs ≠ 0%nat →
  (sync c objs exps net).2 = Throw e →
  let t := (run c env now_iso net).1 in
  exit_status t = 1%nat
  ∧ errors_printed t = ["❌ " +:+ message_text e]
  ∧ writes t = [registry_path] ∧ posts t = [sync_url c]
  ∧ (∀ r, net = Responded r → ok r = false →
          e = plain ("Sync failed: " +:+ text_result r)).
Proof.
  intros Hv Hd Ho Hso He Hse Hn Hs t. subst t.
  rewrite run_eq,
    (run_try_loaded c env now_iso _ _ objs exps Hv
       (loadObjectsFromJson_ok env data objs exps Hd Ho Hso He Hse)).
  apply Nat.eqb_neq in Hn. rewrite Hn, saveRegistryFile_eq. simpl.
  rewrite Hs. simpl.
  assert (Hts : (sync c objs exps net).1
                = [Log "🚀 Syncing to Nova backend..."; sync_post c objs exps]).
  { rewrite sync_eq in Hs |- *. destruct net as [e0|r]; [done|].
    destruct (ok r); [|done]. by destruct (json_result r). }
  rewrite Hts.
  destruct (after_validation c env "🎯 Nova Registry Sync"
              (manifest_read objs
                 ++ [ Read package_path;
                      WriteFile registry_path
                        (registry_document c (package_version env) now_iso objs);
                      Log ("📄 Registry saved to " +:+ dq +:+ registry_path +:+ dq);
                      Log "🚀 Syncing to Nova backend...";
                      sync_post c objs exps;
                      LogError ("❌ " +:+ message_text e); Exit 1 ]))
    as (F1 & F2 & F3 & F4).
  unfold exit_status. simpl in *.
  rewrite <- ?app_assoc. simpl.
  rewrite F1, F2, F3, F4.
  repeat split; try done.
  intros r -> Hok. rewrite sync_eq, Hok in Hs. simpl in Hs. by inversion Hs.
Qed.
Lemma failed_after_validation c env m (mid : list cli_event) msg :
  let t := (Log m :: (validateProject c env).1 ++ mid) ++ [LogError msg; Exit 1] in
  errors_printed t = errors_printed mid ++ [msg]
  ∧ manifest_accesses t = manifest_accesses mid
  ∧ (exits mid = [] → exit_status t = 1%nat)
  ∧ writes t = writes mid ∧ posts t = posts mid.
Proof.
  destruct (validateProject_harmless c env) as (V1 & V2 & V3 & V4 & V5).
  unfold exit_status, posts, writes, errors_printed, exits, manifest_accesses in *.
  simpl. rewrite !omap_app, !List.filter_app, V1, V2, V3, V4, V5. simpl.
  rewrite !app_nil_r. repeat split; try done. by intros ->.
Qed.

(** X21.  A manifest that is missing or is not valid JSON.  With the
    validation passed, a missing [src/nova-objects.json] ends the run with
    [nova-objects.json not found ...], read after a mere existence test,
    and a file that [JSON.parse] rejects ends it with
    [Invalid JSON in nova-objects.json:] followed by the parser's message;
    in both cases nothing is written or posted and the status is 1. *)
Theorem X21_missing_or_malformed_manifest
    (c : Config) (env : Environment) (now_iso : string) (net : fetch_result) :
  (validateProject c env).2 = Return tt →
  let t := (run c env now_iso net).1 in
  (nova_objects_json env = Absent →
     errors_printed t
     = ["❌ nova-objects.json not found. Create this file with your object definitions."]
     ∧ manifest_accesses t = [Exists manifest_path]
     ∧ exit_status t = 1%nat ∧ writes t = [] ∧ posts t = [])
  ∧ (∀ m, nova_objects_json env = Unparsable m →
       errors_printed t = ["❌ Invalid JSON in nova-objects.json: " +:+ m]
       ∧ exit_status t = 1%nat ∧ writes t = [] ∧ posts t = []).
Proof.
  intros Hv t. subst t. split.
  - intros Hm.
    assert (Hl : loadObjectsFromJson env
                 = ([Log "📄 Loading objects from nova-objects.json...";
                     Exists manifest_path],
                    Throw (plain "nova-objects.json not found. Create this file with your object definitions."))).
    { unfold loadObjectsFromJson, existsSync. by rewrite Hm. }
    rewrite (run_reports _ _ _ _ _ _
               (run_try_stops_at_manifest c env now_iso net _ Hv (f_equal snd Hl))).
    rewrite Hl.
    destruct (failed_after_validation c env "🎯 Nova Registry Sync"
                [Log "📄 Loading objects from nova-objects.json...";
                 Exists manifest_path]
                "❌ nova-objects.json not found. Create this file with your object definitions.")
      as (F1 & F2 & F3 & F4 & F5).
    split; [exact F1|]. split; [exact F2|]. split; [by apply F3|].
    split; [exact F4|exact F5].
  - intros m Hm.
    assert (Hl : loadObjectsFromJson env
                 = ([Log "📄 Loading objects from nova-objects.json...";
                     Exists manifest_path; Read manifest_path],
                    Throw (plain ("Invalid JSON in nova-objects.json: " +:+ m)))).
    { unfold loadObjectsFromJson, existsSync, read_json. by rewrite Hm. }
    rewrite (run_reports _ _ _ _ _ _
               (run_try_stops_at_manifest c env now_iso net _ Hv (f_equal snd Hl))).
    rewrite Hl.
    destruct (failed_after_validation c env "🎯 Nova Registry Sync"
                [Log "📄 Loading objects from nova-objects.json...";
                 Exists manifest_path; Read manifest_path]
                ("❌ Invalid JSON in nova-objects.json: " +:+ m))
      as (F1 & F2 & F3 & F4 & F5).
    split; [exact F1|]. split; [by apply F3|]. split; [exact F4|exact F5].
Qed.

(** What the [try] block of [run] can have done when it ends: no error
    printed, no exit, and either nothing written and nothing posted, or
    the registry written and the request posted. *)
Lemma run_try_effects c env now_iso net :
  let t := (run_try c env now_iso net).1 in
  errors_printed t = [] ∧ exits t = []
  ∧ ((writes t = [] ∧ posts t = [])
     ∨ (writes t = [registry_path] ∧ posts t = [sync_url c])).
Proof.
  destruct (validateProject_harmless c env) as (V1 & V2 & _ & V4 & V5).
  destruct (loadObjectsFromJson_harmless_but_manifest env) as (L1 & L2 & L4 & L5).
  destruct (validateProject c env).2 as [[]|e] eqn:Hv.
  2: { rewrite (run_try_stops_at_validation c env now_iso net e Hv). simpl.
       unfold errors_printed, exits, writes, posts in *. simpl. tauto. }
  destruct (loadObjectsFromJson env) as [tl [[objs exps]|e]] eqn:Hl.
  2: { rewrite (run_try_stops_at_manifest c env now_iso net e Hv (f_equal snd Hl)).
       rewrite Hl. simpl in *.
       unfold errors_printed, exits, writes, posts in *. simpl.
       rewrite !omap_app, V1, V2, V4, V5, L1, L2, L4, L5. tauto. }
  rewrite (run_try_loaded c env now_iso net tl objs exps Hv Hl). simpl in *.
  destruct (keys_length objs =? 0)%nat; simpl.
  - unfold errors_printed, exits, writes, posts in *. simpl.
    rewrite !omap_app, V1, V2, V4, V5, L1, L2, L4, L5. simpl. tauto.
  - rewrite saveRegistryFile_eq, sync_eq.
    unfold errors_printed, exits, writes, posts in *.
    destruct net as [e0|r]; [|destruct (ok r); [destruct (json_result r)|]];
      simpl; rewrite !omap_app, V1, V2, V4, V5, L1, L2, L4, L5; simpl; tauto.
Qed.

(** X22.  Whatever the project directory, the configuration and the
    network do, [run] itself never throws; it prints at most one error,
    and it ends with status 1 exactly when it printed one, with status 0
    otherwise.  It writes the registry file at most once and posts at most
    once, and it posts if and only if it has written the file. *)
Theorem X22_run_is_contained
    (c : Config) (env : Environment) (now_iso : string) (net : fetch_result) :
  let t := (run c env now_iso net).1 in
  (run c env now_iso net).2 = Return tt
  ∧ ((errors_printed t = [] ∧ exit_status t = 0%nat)
     ∨ (∃ m, errors_printed t = [m] ∧ exit_status t = 1%nat))
  ∧ ((writes t = [] ∧ posts t = [])
     ∨ (writes t = [registry_path] ∧ posts t = [sync_url c])).
Proof.
  intros t. subst t. rewrite run_eq.
  destruct (run_try_effects c env now_iso net) as (E1 & E2 & E3).
  destruct (run_try c env now_iso net) as [t [[]|e]]; simpl in *.
  - split; [done|]. split; [|done]. left. unfold exit_status. by rewrite E1, E2.
  - split; [done|].
    unfold exit_status, errors_printed, exits, writes, posts in *.
    rewrite !omap_app, E1, E2. simpl. split; [right; eauto|].
    destruct E3 as [[-> ->]|[-> ->]]; simpl; tauto.
Qed.

(** X23.  The command line.  With [--help] or [-h] anywhere among the
    arguments the script prints the usage text and exits with status 0
    before [NovaSync] is even constructed: no configuration file, no
    [package.json] and no manifest is looked at, nothing is written and no
    request is sent.  Without them the
    arguments play no part: the script is the plain sync run, so adding
    [--dry-run] or [--verbose] changes nothing, and a dry run still writes
    the registry file and posts to the backend. *)
Theorem X23_command_line
    (args : list string) (env : Environment) (now_iso : string) (net : fetch_result) :
  (has_flag "--help" args || has_flag "-h" args = true →
     script args env now_iso net = ([Log usage; Exit 0], Return tt)
     ∧ exit_status (script args env now_iso net).1 = 0%nat
     ∧ file_accesses (script args env now_iso net).1 = []
     ∧ posts (script args env now_iso net).1 = [])
  ∧ (has_flag "--help" args || has_flag "-h" args = false →
       script args env now_iso net = main env now_iso net)
  ∧ script ("--dry-run" :: args) env now_iso net = script args env now_iso net
  ∧ script ("--verbose" :: args) env now_iso net = script args env now_iso net.
Proof.
  unfold script. split; [|split; [|split]].
  - by intros ->.
  - by intros ->.
  - done.
  - done.
Qed.
End NovaSyncMore.

(** ** Helper functions *)

(** X24.  The guard [isValidNovaObject] accepts exactly the objects that
    have a string [name] and a [defaultProps] that is an object or an
    array; in particular it accepts an empty name and array defaults and
    rejects [null] defaults.  Hence a definition built by
    [defineNovaObject] passes the guard exactly when its default
    properties are an object or an array. *)
Theorem X24_isValidNovaObject_accepts (obj : json) :
  (truthy (isValidNovaObject obj) = true
   ↔ ∃ fields n d, obj = JObj fields
                   ∧ assoc "name" fields = Some (JStr n)
                   ∧ assoc "defaultProps" fields = Some d
                   ∧ is_object_value d)
  ∧ (∀ n d, truthy (isValidNovaObject (defineNovaObject n d)) = true
            ↔ is_object_value d).
Proof.
  assert (Hfalsy : ∀ v d : json, truthy (if truthy v then d else v) = true →
                   truthy v = true ∧ truthy d = true).
  { intros v d. destruct (truthy v) eqn:Hv; [done|]. by rewrite Hv. }
  assert (Hobj : ∀ d, truthy (js_and d (JBool (typeof_object d))) = true
                      ↔ is_object_value d).
  { intros d. unfold js_and. split.
    - intros [Ht Hty]%Hfalsy. destruct d; try done.
    - intros Hd. by destruct d. }
  assert (Hchain : ∀ a b : json, truthy (js_and a b) = true
                                 ↔ truthy a = true ∧ truthy b = true).
  { intros a b. unfold js_and. split.
    - apply Hfalsy.
    - by intros [-> ->]. }
  assert (Hmain : ∀ obj', truthy (isValidNovaObject obj') = true
            ↔ (truthy obj' = true ∧ typeof_object obj' = true)
              ∧ typeof_string (js_get_opt obj' "name") = true
              ∧ is_object_value (js_get_opt obj' "defaultProps")).
  { intros obj'. unfold isValidNovaObject.
    rewrite Hchain, <- Hobj.
    rewrite (Hchain _ (js_get_opt obj' "defaultProps")).
    rewrite (Hchain _ (JBool (typeof_string _))), (Hchain obj'). simpl.
    rewrite (Hchain (js_get_opt obj' "defaultProps")). simpl. tauto. }
  split.
  - rewrite Hmain. split.
    + intros ((Ht & Hty) & Hn & Hd).
      destruct obj as [| |[]|z|s|l|fields]; try done.
      * unfold js_get_opt in *. simpl in *.
        destruct (assoc "name" fields) as [nv|] eqn:Hnv; simpl in Hn; [|done].
        destruct nv; try done.
        destruct (assoc "defaultProps" fields) as [d|] eqn:Hdv; simpl in Hd; [|done].
        by eexists _, _, _.
    + intros (fields & n & d & -> & Hn & Hd & Hv).
      unfold js_get_opt. simpl. by rewrite Hn, Hd.
  - intros n d. rewrite Hmain. unfold defineNovaObject, js_get_opt. simpl. tauto.
Qed.

(** ** Reading an unregistered object *)

(** X25.  The first read of an unregistered name does not answer like the
    later ones.  With a user set and the request answered, the
    asynchronous [getNovaObject] on a name that is not in the cache and
    is no name of a member of [Object.prototype] returns the whole
    response record, as [loadObject] does; once the
    entry is there, it returns the entry's props, that is the response's
    [variant_config] (or [undefined] when that is falsy, the new entry
    having no defaults). *)
Theorem X25_first_read_returns_whole_response
    (state : NovaState) (u : NovaUser) (nm : string) (net : fetch_result)
    (data : json) (clock : nat → Z) :
  user state = Some u →
  objects state !! nm = None →
  inherited nm = false →
  api_completion net = Return data →
  let first := NovaProvider.getNovaObject state nm false net in
  let s' := state_after clock state first.1 in
  first.2 = Return data
  ∧ (∀ readOnly net',
       NovaProvider.getNovaObject s' nm readOnly net'
       = ([], Return (js_or (js_get_opt data "variant_config") JUndefined))).
Proof.
  intros Hu Habs Hown Hd first s'. subst s' first.
  assert (Hfirst : NovaProvider.getNovaObject state nm false net
                   = ([Dispatch (SET_LOADING true); Dispatch (SET_ERROR None);
                       Fetch (variant_request state u nm).1 (variant_request state u nm).2;
                       Dispatch (UPDATE_OBJECT_PROPS nm (js_get_opt data "variant_config"));
                       Dispatch (SET_LOADING false)], Return data)).
  { unfold NovaProvider.getNovaObject. rewrite Habs, Hown, bind_ret_r.
    rewrite (loadObject_fetching state u Hu nm false net)
      by (unfold NovaProvider.isObjectLoaded; by rewrite Habs).
    by rewrite Hd. }
  rewrite Hfirst. split; [done|].
  intros readOnly net'. unfold NovaProvider.getNovaObject, state_after. simpl.
  by rewrite lookup_insert_eq, Habs.
Qed.

(** ** Loading in bulk, then again *)



(** X27.  [updateConfig] with only a new endpoint redirects the requests
    that follow and changes nothing else: user, cache, flags, organisation
    id and app id stay as they were, a later [loadObject] sends the same
    body as before, now to the new endpoint, and repeating the update
    changes nothing further.  An update with no field at all leaves the
    state as it was. *)
Theorem X27_updateConfig_redirects
    (state : NovaState) (p : PartialNovaConfig) (clock : nat → Z) :
  let s' := state_after clock state (NovaProviderOps.updateConfig p).1 in
  user s' = user state ∧ objects s' = objects state
  ∧ isLoading s' = isLoading state ∧ error s' = error state
  ∧ state_after clock s' (NovaProviderOps.updateConfig p).1 = s'
  ∧ (organisationId_opt p = None → appId_opt p = None →
     apiEndpoint_opt p = None → s' = state)
  ∧ (∀ e u nm net,
       apiEndpoint_opt p = Some e →
       organisationId_opt p = None → appId_opt p = None →
       user state = Some u →
       fetches (NovaProvider.loadObject s' nm true net).1
       = [(e +:+ "/api/v1/user-experience/get-variant/",
           (variant_request state u nm).2)]).
Proof.
  intros s'. subst s'. unfold NovaProviderOps.updateConfig, state_after. simpl.
  do 4 (split; [done|]). split; [|split].
  - apply state_eq; try done. simpl. unfold merge_config. simpl.
    by destruct (organisationId_opt p), (appId_opt p), (apiEndpoint_opt p).
  - intros H1 H2 H3. apply state_eq; try done. simpl. unfold merge_config.
    rewrite H1, H2, H3. simpl. by destruct (config state).
  - intros e u nm net He Ho Ha Hu.
    rewrite (loadObject_fetching _ u) by done.
    unfold variant_request, NovaProvider.variant_url, NovaProvider.request_fields,
      merge_config. simpl. rewrite He, Ho, Ha. simpl.
    by destruct (api_completion net).
Qed.

(** ** Worked instances of the further properties *)

Lemma X3_witness :
  ∃ o', objects (novaReducer 7 (state_with None {[ "hero" := loaded_hero ]} false)
                   (UPDATE_OBJECT_PROPS "hero" red)) !! "hero" = Some o'
        ∧ name o' = name loaded_hero ∧ defaultProps o' = defaultProps loaded_hero
        ∧ (isLoaded loaded_hero = true → isLoaded o' = true).
Proof.
  refine (X3_entries_survive 7 (state_with None {[ "hero" := loaded_hero ]} false)
            (UPDATE_OBJECT_PROPS "hero" red) "hero" loaded_hero _ _); reflexivity.
Defined.

Lemma X4_witness :
  has_defaults (novaReducer 7 (state_with None {[ "hero" := unloaded_hero ]} false)
                  (UPDATE_OBJECT_PROPS "hero" blue)).
Proof.
  refine (X4_defaults_kept_for_registered_names 7
            (state_with None {[ "hero" := unloaded_hero ]} false)
            (UPDATE_OBJECT_PROPS "hero" blue) _ _).
  - intros k o Hk. simpl in Hk.
    apply lookup_singleton_Some in Hk as [_ <-]. by eexists.
  - by eexists.
Defined.

Lemma X5_witness :
  novaReducer 1 (novaReducer 2 (initialState demo_config) (SET_LOADING true))
    (UPDATE_OBJECT_PROPS "hero" red)
  = novaReducer 2 (novaReducer 1 (initialState demo_config)
                     (UPDATE_OBJECT_PROPS "hero" red)) (SET_LOADING true).
Proof.
  refine (X5_flag_actions_commute_with_cache_actions 1 2 (initialState demo_config)
            (SET_LOADING true) (UPDATE_OBJECT_PROPS "hero" red) _ _); reflexivity.
Defined.

Lemma X6_witness :
  NovaProvider.isObjectLoaded
    (state_after still_clock (state_with (Some demo_user) ∅ false)
       (NovaProvider.loadObject (state_with (Some demo_user) ∅ false)
          "hero" false hero_variant).1) "hero" = true.
Proof.
  refine (proj1 (proj2 (X6_load_then_reload_is_skipped
            (state_with (Some demo_user) ∅ false) demo_user "hero" false
            hero_variant (JObj [("feature_name", JStr "hero"); ("variant_config", red)])
            still_clock _ _ _))); reflexivity.
Defined.

Lemma X7_witness :
  objects (state_after still_clock
             (state_with (Some demo_user) {[ "hero" := unloaded_hero ]} false)
             (NovaProvider.loadObject
                (state_with (Some demo_user) {[ "hero" := unloaded_hero ]} false)
                "hero" false offline).1)
  = objects (state_with (Some demo_user) {[ "hero" := unloaded_hero ]} false).
Proof.
  refine (proj1 (X7_failed_load_keeps_cache
            (state_with (Some demo_user) {[ "hero" := unloaded_hero ]} false)
            offline (ErrorObj TypeError "Failed to fetch") still_clock _)
            "hero" false).
  reflexivity.
Defined.

Lemma X8_witness :
  NovaProviderSync.getNovaObject
    (state_after still_clock
       (state_with (Some demo_user) {[ "hero" := unloaded_hero ]} false)
       (NovaProvider.loadObject
          (state_with (Some demo_user) {[ "hero" := unloaded_hero ]} false)
          "hero" false bare_variant).1) "hero"
  = ([], Return red).
Proof.
  refine (proj1 (proj2 (proj2 (X8_load_without_variant_config
            (state_with (Some demo_user) {[ "hero" := unloaded_hero ]} false)
            demo_user "hero" false bare_variant
            (JObj [("feature_name", JStr "hero")]) still_clock _ _ _ _))));
    reflexivity.
Defined.


Lemma X10_witness :
  fetches (NovaProvider.loadObjects
             (state_with (Some demo_user) {[ "hero" := loaded_hero ]} false)
             ["hero"; "hero"] true offline).1
  = [batch_request (state_with (Some demo_user) {[ "hero" := loaded_hero ]} false)
       demo_user ["hero"; "hero"]].
Proof.
  refine (proj1 (X10_loadObjects_forced
            (state_with (Some demo_user) {[ "hero" := loaded_hero ]} false)
            demo_user ["hero"; "hero"] offline _) _).
  - reflexivity.
  - discriminate.
Defined.

Lemma X11_witness :
  NovaProviderOps.trackEvent (state_with (Some demo_user) ∅ false)
    "click" JUndefined "2025-01-01T00:00:00.000Z" offline
  = ([], Return tt).
Proof.
  refine (proj1 (proj2 (X11_trackEvent_gate (state_with (Some demo_user) ∅ false)
            "click" JUndefined "2025-01-01T00:00:00.000Z" offline)) _).
  reflexivity.
Defined.

Lemma X12_witness :
  state_after still_clock (state_with None ∅ false)
    (NovaProviderOps.setUser (state_with None ∅ false) demo_user offline).1
  = state_with None ∅ false.
Proof.
  refine (proj2 (proj2 (proj1 (proj2 (X12_setUser_registers_first
            (state_with None ∅ false) demo_user offline still_clock))
            (ErrorObj TypeError "Failed to fetch") _))).
  reflexivity.
Defined.

Lemma X13_witness :
  objects (state_after still_clock hero_fetched
             (NovaProviderOps.loadDefaults defaults_document).1) = ∅.
Proof.
  destruct (X13_loadDefaults_outcomes hero_fetched defaults_document still_clock)
    as (_ & _ & _ & _ & _ & _ & H).
  refine (proj1 (proj2 (H (JObj [("hero", red)]) _)) _); [reflexivity|].
  intros k [v Hk].
  change (({[ "hero" := red ]} : gmap string json) !! k = Some v) in Hk.
  apply lookup_singleton_Some in Hk as [<- _]. reflexivity.
Defined.

Lemma X14_witness :
  (NovaProviderOps.initialize (initialState demo_config) defaults_document
     two_variants).2 = Throw user_required
  ∧ ∀ k, objects (state_after still_clock signed_in
                    (NovaProviderOps.initialize signed_in defaults_document
                       two_variants).1) !! k
         = with_fetched 0 None
             <$> ({[ "hero" := red; "banner" := blue ]} : gmap string json) !! k.
Proof.
  split.
  - refine (proj1 (proj1 (proj2 (X14_initialize_outcomes (initialState demo_config)
              defaults_document two_variants still_clock)) _ _)); reflexivity.
  - refine (proj1 (proj2 (proj2 (proj2 (proj2 (X14_initialize_outcomes signed_in
              defaults_document two_variants still_clock)) demo_user
              (JObj [("hero", red)])
              (JObj [("hero", JObj [("variant_config", red)]);
                     ("banner", JObj [("variant_config", blue)])])
              [("hero", JObj [("variant_config", red)]);
               ("banner", JObj [("variant_config", blue)])] _ _ _ _ _ _ _)))).
    + reflexivity.
    + reflexivity.
    + reflexivity.
    + intros k [v Hk].
      change (({[ "hero" := red ]} : gmap string json) !! k = Some v) in Hk.
      apply lookup_singleton_Some in Hk as [<- _]. reflexivity.
    + reflexivity.
    + reflexivity.
    + apply not_elem_of_cons. split; [discriminate|].
      apply not_elem_of_cons. split; [discriminate|apply not_elem_of_nil].
Defined.

Lemma X15_witness :
  error (state_after still_clock (state_with (Some demo_user) ∅ false)
           (NovaProviderFetch.loadObject (state_with (Some demo_user) ∅ false)
              "hero" false (Responded not_found)).1)
  = Some (load_failure_message "hero"
            (ErrorObj PlainError "Failed to load object: Not Found")).
Proof.
  destruct (X15_revisions_agree (state_with (Some demo_user) ∅ false)
              (Responded not_found) still_clock) as (_ & _ & _ & H).
  refine (proj2 (H demo_user "hero" false not_found _ _ _ _)); reflexivity.
Defined.

Lemma X25_witness :
  (NovaProvider.getNovaObject (state_with (Some demo_user) ∅ false)
     "hero" false hero_variant).2
  = Return (JObj [("feature_name", JStr "hero"); ("variant_config", red)]).
Proof.
  refine (proj1 (X25_first_read_returns_whole_response
            (state_with (Some demo_user) ∅ false) demo_user "hero" hero_variant
            (JObj [("feature_name", JStr "hero"); ("variant_config", red)])
            still_clock _ _ _ _)); reflexivity.
Defined.

Lemma X24_witness :
  truthy (isValidNovaObject (defineNovaObject EmptyString (JArr []))) = true.
Proof.
  refine (proj2 (proj2 (X24_isValidNovaObject_accepts JNull) EmptyString (JArr [])) _).
  exact I.
Defined.


Lemma X27_witness :
  fetches (NovaProvider.loadObject
             (state_after still_clock (state_with (Some demo_user) ∅ false)
                (NovaProviderOps.updateConfig
                   {| organisationId_opt := None; appId_opt := None;
                      apiEndpoint_opt := Some "https://eu.nova.example" |}).1)
             "hero" true offline).1
  = [("https://eu.nova.example" +:+ "/api/v1/user-experience/get-variant/",
      (variant_request (state_with (Some demo_user) ∅ false) demo_user "hero").2)].
Proof.
  destruct (X27_updateConfig_redirects (state_with (Some demo_user) ∅ false)
              {| organisationId_opt := None; appId_opt := None;
                 apiEndpoint_opt := Some "https://eu.nova.example" |} still_clock)
    as (_ & _ & _ & _ & _ & _ & H).
  refine (H "https://eu.nova.example" demo_user "hero" offline _ _ _ _); reflexivity.
Defined.

Module NovaSyncInstances.
Import NovaSync NovaSyncScript.

Lemma X17_witness :
  (validate_package bare_directory).2
  = Throw (plain "No package.json found. Run this command from your project root.").
Proof.
  refine (proj1 (proj2 (NovaSyncMore.X17_validate_package_outcomes bare_directory)) _).
  reflexivity.
Defined.

Lemma X18_witness :
  exit_status (run complete_config complete_project "2025-01-01T00:00:00.000Z"
                 accepted).1 = 0%nat
  ∧ writes (run complete_config complete_project "2025-01-01T00:00:00.000Z"
              accepted).1 = [registry_path]
  ∧ posts (run complete_config complete_project "2025-01-01T00:00:00.000Z"
             accepted).1
    = ["https://api.nova.com" +:+ "/api/v1/feature-flags/sync-nova-objects/"].
Proof.
  destruct (NovaSyncMore.X18_complete_run complete_config complete_project
              "2025-01-01T00:00:00.000Z"
              {| status := 200; statusText := "OK"; text_result := EmptyString;
                 json_result := Return (JObj [("synced", JNum 1)]) |}
              (JObj [("objects", JObj [("x", red)]); ("experiences", JObj [])])
              (JObj [("x", red)]) (JObj []) (JObj [("synced", JNum 1)])
              "key-1" "https://api.nova.com")
    as (_ & H1 & _ & H2 & H3);
    [reflexivity|reflexivity|reflexivity|reflexivity|reflexivity|reflexivity
    |reflexivity|reflexivity|discriminate|reflexivity|reflexivity|].
  split; [exact H1|]. split; [exact H2|exact H3].
Defined.

Lemma X19_witness :
  posts (run complete_config empty_objects_project "2025-01-01T00:00:00.000Z"
           accepted).1 = [].
Proof.
  destruct (NovaSyncMore.X19_empty_manifest_stops_quietly complete_config
              empty_objects_project "2025-01-01T00:00:00.000Z" accepted
              (JObj [("objects", JObj []); ("experiences", JObj [])])
              (JObj []) (JObj []))
    as (_ & _ & _ & _ & H);
    [reflexivity|reflexivity|reflexivity|reflexivity|reflexivity|reflexivity
    |reflexivity|].
  exact H.
Defined.

Lemma X20_witness :
  errors_printed (run complete_config complete_project "2025-01-01T00:00:00.000Z"
                    (Responded not_found)).1
  = ["❌ Sync failed: no such route"]
  ∧ writes (run complete_config complete_project "2025-01-01T00:00:00.000Z"
              (Responded not_found)).1 = [registry_path].
Proof.
  destruct (NovaSyncMore.X20_failed_sync_leaves_registry complete_config
              complete_project "2025-01-01T00:00:00.000Z" (Responded not_found)
              (JObj [("objects", JObj [("x", red)]); ("experiences", JObj [])])
              (JObj [("x", red)]) (JObj [])
              (plain "Sync failed: no such route"))
    as (_ & H1 & H2 & _);
    [reflexivity|reflexivity|reflexivity|reflexivity|reflexivity|reflexivity
    |discriminate|reflexivity|].
  split; [exact H1|exact H2].
Defined.

Lemma X21_witness :
  errors_printed (run complete_config no_manifest_project
                    "2025-01-01T00:00:00.000Z" accepted).1
  = ["❌ nova-objects.json not found. Create this file with your object definitions."].
Proof.
  refine (proj1 (proj1 (NovaSyncMore.X21_missing_or_malformed_manifest
            complete_config no_manifest_project "2025-01-01T00:00:00.000Z"
            accepted _) _)); reflexivity.
Defined.

Lemma X23_witness :
  script ["--verbose"; "-h"] complete_project "2025-01-01T00:00:00.000Z" accepted
  = ([Log usage; Exit 0], Return tt).
Proof.
  refine (proj1 (proj1 (NovaSyncMore.X23_command_line ["--verbose"; "-h"]
            complete_project "2025-01-01T00:00:00.000Z" accepted) _)).
  reflexivity.
Defined.
End NovaSyncInstances.
